(** * Turn taking in the voices-V2 practice pages

    A shallow embedding of the conversation-state logic of the three
    client pages of the repository:

    - the interview page ([InterviewPracticePage]: speech recognition,
      [handleUserSpeech]),
    - the practice page with the remote interviewer ([PracticePage] with
      [handleGeminiInterviewerResponse]),
    - the practice page with the presentation flow
      (app/practice/[scenarioId]/page.tsx).

    Modelling conventions.

    - A JavaScript string is the list of its UTF-16 code units.
    - [Date.now()] and [Math.random()] are inputs of the function that
      reads them.
    - React state is a record ([PageState]); [useRef] cells, the browser
      timer table and local storage are fields of the [World].
    - [const [convState, setConvState] = useState(...)] binds [convState]
      afresh in every render, and a function declared in the body of the
      component closes over the bindings of the render that created it.
      Every handler therefore takes the state of that render as its
      argument [env], next to the world it acts on: a plain read of a
      state variable reads [env], a functional update
      ([setX(prev => ...)]) and a read of [ref.current] act on the world.
    - An [async] handler is cut at its [await fetch(...)]: the part before
      it, which sends the request, and the part that runs once the call
      has settled.
    - Text-to-speech playback, media streams, the speech recognition
      object and console output are not modelled: none of the modelled
      functions reads them back. *)

From stdpp Require Import base numbers list option gmap strings.
From Stdlib Require Import ZArith Lia DecimalString.
From Stdlib Require QArith.

Open Scope Z_scope.

(** ** JavaScript strings *)

Abbreviation jsstring := (list N).

Definition lit (s : string) : jsstring :=
  List.map Ascii.N_of_ascii (String.list_ascii_of_string s).

(** Decimal rendering of an integer, as a template literal prints it. *)
Definition showZ (z : Z) : jsstring := lit (NilZero.string_of_int (Z.to_int z)).

Arguments lit : simpl never.
Arguments showZ : simpl never.

(** WhiteSpace and LineTerminator code points of ECMAScript, the characters
    [String.prototype.trim] removes. *)
Definition isWhiteSpace (c : N) : bool :=
  ((c =? 9) || (c =? 10) || (c =? 11) || (c =? 12) || (c =? 13) || (c =? 32)
   || (c =? 160) || (c =? 5760) || ((8192 <=? c) && (c <=? 8202))
   || (c =? 8232) || (c =? 8233) || (c =? 8239) || (c =? 8287)
   || (c =? 12288) || (c =? 65279))%N.

Fixpoint trimStart (s : jsstring) : jsstring :=
  match s with
  | [] => []
  | c :: r => if isWhiteSpace c then trimStart r else s
  end.

Definition trimEnd (s : jsstring) : jsstring := rev (trimStart (rev s)).

Definition trim (s : jsstring) : jsstring := trimEnd (trimStart s).

(** Truthiness of a string: the empty string is the only falsy one. *)
Definition truthy (s : jsstring) : bool :=
  match s with [] => false | _ :: _ => true end.

Definition whitespaceOnly (s : jsstring) : Prop := forallb isWhiteSpace s = true.

(** ** Shared types (the declarations of "@/types", read off their uses) *)

Inductive DifficultyLevel := easy | medium | hard.

Record Agent := {
  agent_id : jsstring;
  agent_name : jsstring;
  voiceId : jsstring;
  emotionPrefix : option jsstring
}.

Record Message := {
  msg_id : jsstring;
  agentId : jsstring;
  agentName : jsstring;
  content : jsstring;
  timestamp : Z;
  isUser : bool
}.

Record Scenario := {
  scen_id : jsstring;
  scen_type : jsstring;
  basePrompt : jsstring;
  presentational : option jsstring;
  duration : Z
}.

Inductive Strategy := ActiveHost.

(** ** The library "@/lib/agent-responses" *)

Module AgentResponses.

Record ConversationState := {
  turnIndex : Z;
  awaitingAgentTurn : bool
}.

(** Modelled from the spec: [initConversationState] of
    lib/agent-responses, "state{turnIndex:0, awaitingAgentTurn:false}". *)
Definition initConversationState : ConversationState :=
  {| turnIndex := 0; awaitingAgentTurn := false |}.

(** Modelled from the spec: [updateStateOnUserMessage] of
    lib/agent-responses, "returns new state with awaitingAgentTurn=true,
    turnIndex unchanged". *)
Definition updateStateOnUserMessage (state : ConversationState) : ConversationState :=
  {| turnIndex := turnIndex state; awaitingAgentTurn := true |}.

(** Modelled from the spec: [advanceAfterAgentResponse] of
    lib/agent-responses, "returns new state with turnIndex+1,
    awaitingAgentTurn=false". *)
Definition advanceAfterAgentResponse (state : ConversationState) (agentId : jsstring)
  : ConversationState :=
  {| turnIndex := turnIndex state + 1; awaitingAgentTurn := false |}.

(** Modelled from the spec: [canGenerateAgentResponse] of
    lib/agent-responses, "true iff awaitingAgentTurn is true". *)
Definition canGenerateAgentResponse (state : ConversationState) : bool :=
  awaitingAgentTurn state.

(** *** Agent selection *)

(** Speaker ids of the agent (non-user) messages, oldest first. *)
Definition speakers (history : list Message) : list jsstring :=
  List.map agentId (List.filter (fun m => negb (isUser m)) history).

Definition lastNonUserSpeaker (history : list Message) : option jsstring :=
  last (speakers history).

(** Recency of an agent: 0 when it never spoke, otherwise one more than
    the position of its latest utterance among the agent messages. *)
Fixpoint lastSpoke (who : jsstring) (pos : nat) (ss : list jsstring) : nat :=
  match ss with
  | [] => O
  | s :: r =>
      match lastSpoke who (S pos) r with
      | O => if bool_decide (s = who) then S pos else O
      | S k => S k
      end
  end.

Definition recency (history : list Message) (a : Agent) : nat :=
  lastSpoke (agent_id a) O (speakers history).

(** The first agent of the list with the smallest key. *)
Fixpoint leastRecent (key : Agent -> nat) (l : list Agent) : option Agent :=
  match l with
  | [] => None
  | a :: r =>
      match leastRecent key r with
      | None => Some a
      | Some b => if (key a <=? key b)%nat then Some a else Some b
      end
  end.

Definition isLastSpeaker (history : list Message) (a : Agent) : bool :=
  bool_decide (lastNonUserSpeaker history = Some (agent_id a)).

(** Modelled from the spec: [selectAgentToSpeak] of lib/agent-responses,
    "returns null if agents is empty.  For strategy active-host
    selection should avoid immediate repetition of the most recent
    non-user speaker when more than one agent exists (tie-break: prefer
    the agent who has spoken least recently; on full tie, deterministic
    order by list position)". *)
Definition selectAgentToSpeak (messageHistory : list Message) (scenario : Scenario)
    (agents : list Agent) (strategy : Strategy) : option Agent :=
  match strategy with
  | ActiveHost =>
      match agents with
      | [] => None
      | [a] => Some a
      | _ =>
          leastRecent (recency messageHistory)
            (List.filter (fun a => negb (isLastSpeaker messageHistory a)) agents)
      end
  end.

Arguments selectAgentToSpeak : simpl never.

End AgentResponses.

Import AgentResponses.


(** ** The conversational endpoint, as the pages see it *)

Inductive JsError := mkError (message : jsstring).

Definition message (e : JsError) : jsstring := let 'mkError m := e in m.

Inductive Role := RoleUser | RoleModel.

Record ConversationMessage := {
  role : Role;
  text : jsstring
}.

(** Body of a response whose [ok] flag is false, as
    [await response.json().catch(() => ({}))] followed by
    [errorData.error || ...] observes it: the body does not parse, it is
    [null] (reading [.error] raises the given TypeError), or it is a value
    whose [error] member is falsy ([None]) or prints as the given string. *)
Inductive ErrorBody :=
| ErrorBodyUnparseable
| ErrorBodyNull (typeError : JsError)
| ErrorBodyValue (error : option jsstring).

(** Body of a response whose [ok] flag is true. *)
Inductive OkBody :=
| OkBodyUnparseable (syntaxError : JsError)
| OkBodyNull (typeError : JsError)
| OkBodyData (response : jsstring) (history : list ConversationMessage).

(** What [await fetch('/api/gemini/interview', ...)] settles to. *)
Inductive FetchOutcome :=
| NetworkError (e : JsError)
| HttpError (body : ErrorBody)
| HttpOk (body : OkBody).

Record Request := {
  req_userInput : jsstring;
  req_conversationHistory : list ConversationMessage
}.

(** The value the [try] block of both handlers computes before it touches
    any state: the thrown error, or the parsed reply. *)
Definition awaitReply (outcome : FetchOutcome)
  : JsError + (jsstring * list ConversationMessage) :=
  match outcome with
  | NetworkError e => inl e
  | HttpError ErrorBodyUnparseable =>
      inl (mkError (lit "Failed to get response from interviewer"))
  | HttpError (ErrorBodyNull typeError) => inl typeError
  | HttpError (ErrorBodyValue None) =>
      inl (mkError (lit "Failed to get response from interviewer"))
  | HttpError (ErrorBodyValue (Some error)) => inl (mkError error)
  | HttpOk (OkBodyUnparseable syntaxError) => inl syntaxError
  | HttpOk (OkBodyNull typeError) => inl typeError
  | HttpOk (OkBodyData response history) => inr (response, history)
  end.

Definition isFailure (outcome : FetchOutcome) : bool :=
  match outcome with
  | NetworkError _ | HttpError _ => true
  | HttpOk _ => false
  end.

Definition errorContent (error : JsError) : jsstring :=
  lit "Sorry, I encountered an error: " ++ message error ++ lit ". Please try again.".

(** ** Speech recognition results *)

Record SpeechResult := {
  transcript : jsstring;
  isFinal : bool
}.

Record SpeechEvent := {
  resultIndex : nat;
  results : list SpeechResult
}.

(** The loop of [recognition.onresult]: [(interimText, finalText)]. *)
Definition collectTranscripts (event : SpeechEvent) : jsstring * jsstring :=
  fold_left
    (fun '(interimText, finalText) r =>
       if isFinal r
       then (interimText, finalText ++ transcript r ++ lit " ")
       else (interimText ++ transcript r, finalText))
    (drop (resultIndex event) (results event)) ([], []).

(** ** The interview page *)

Module Interview.

Inductive DisplayRole := user | assistant.

Record DisplayMessage := {
  id : jsstring;
  role : DisplayRole;
  content : jsstring;
  timestamp : Z
}.

(** React state of [InterviewPracticePage] and its [lastTranscriptTimeRef]. *)
Record State := {
  messages : list DisplayMessage;
  conversationHistory : list ConversationMessage;
  isProcessing : bool;
  sessionActive : bool;
  interimTranscript : jsstring;
  isListening : bool;
  ttsEnabled : bool;
  lastTranscriptTimeRef : Z
}.

Definition setMessages (f : list DisplayMessage -> list DisplayMessage) (w : State) : State :=
  Build_State (f (messages w)) (conversationHistory w) (isProcessing w) (sessionActive w)
    (interimTranscript w) (isListening w) (ttsEnabled w) (lastTranscriptTimeRef w).

Definition setConversationHistory (h : list ConversationMessage) (w : State) : State :=
  Build_State (messages w) h (isProcessing w) (sessionActive w)
    (interimTranscript w) (isListening w) (ttsEnabled w) (lastTranscriptTimeRef w).

Definition setIsProcessing (b : bool) (w : State) : State :=
  Build_State (messages w) (conversationHistory w) b (sessionActive w)
    (interimTranscript w) (isListening w) (ttsEnabled w) (lastTranscriptTimeRef w).

Definition setInterimTranscript (s : jsstring) (w : State) : State :=
  Build_State (messages w) (conversationHistory w) (isProcessing w) (sessionActive w)
    s (isListening w) (ttsEnabled w) (lastTranscriptTimeRef w).

Definition setLastTranscriptTime (t : Z) (w : State) : State :=
  Build_State (messages w) (conversationHistory w) (isProcessing w) (sessionActive w)
    (interimTranscript w) (isListening w) (ttsEnabled w) t.

(** [handleUserSpeech] up to its [await fetch(...)]: the guard, the user
    message, the processing flag, and the request that goes out. *)
Definition handleUserSpeech (env : State) (text : jsstring) (now : Z) (w : State)
  : State * option Request :=
  if negb (truthy (trim text)) || isProcessing env then (w, None) else
  let userMessage :=
    {| id := lit "user-" ++ showZ now; role := user; content := text; timestamp := now |} in
  let w1 := setMessages (fun prev => prev ++ [userMessage]) w in
  let w2 := setIsProcessing true w1 in
  (w2, Some {| req_userInput := text;
               req_conversationHistory := conversationHistory env |}).

(** [handleUserSpeech] from the point where [fetch] settles: the rest of
    the [try] block, the [catch] block and the [finally] block. *)
Definition handleUserSpeech_settled (outcome : FetchOutcome) (now : Z) (w : State) : State :=
  let w1 :=
    match awaitReply outcome with
    | inr (assistantText, history) =>
        let w' := setConversationHistory history w in
        let assistantMessage :=
          {| id := lit "assistant-" ++ showZ now; role := assistant;
             content := assistantText; timestamp := now |} in
        setMessages (fun prev => prev ++ [assistantMessage]) w'
    | inl error =>
        let errorMessage :=
          {| id := lit "error-" ++ showZ now; role := assistant;
             content := errorContent error; timestamp := now |} in
        setMessages (fun prev => prev ++ [errorMessage]) w
    end in
  setIsProcessing false w1.

(** [recognition.onresult] of the interview page. *)
Definition onresult (env : State) (event : SpeechEvent) (now nowSpeech : Z) (w : State)
  : State * option Request :=
  let '(interimText, finalText) := collectTranscripts event in
  let w1 := setInterimTranscript interimText w in
  if truthy (trim finalText) then
    if 1500 <? now - lastTranscriptTimeRef w1 then
      let '(w2, request) := handleUserSpeech env (trim finalText) nowSpeech w1 in
      (setLastTranscriptTime now w2, request)
    else (w1, None)
  else (w1, None).

End Interview.

(** ** The practice pages *)

Module Practice.

Record AgentPromptContext := {
  scenarioBasePrompt : jsstring;
  userExtras : jsstring;
  talkingPoints : list (jsstring * Z);
  ctx_presentational : option jsstring
}.

(** React state of [PracticePage]: the union of the state variables of the
    two versions of the page that the modelled functions read or write. *)
Record PageState := {
  userSpeechBuffer : jsstring;
  agents : list Agent;
  messages : list Message;
  convState : ConversationState;
  userInput : jsstring;
  timeElapsed : Z;
  isActive : bool;
  difficulty : DifficultyLevel;
  sessionEnded : bool;
  finalScore : Z;
  userExtrasForContext : jsstring;
  talkingPointsForContext : list (jsstring * Z);
  useGeminiInterviewer : bool;
  geminiConversationHistory : list ConversationMessage;
  isGeminiProcessing : bool;
  currentAgentIndex : nat;
  interimTranscript : jsstring;
  fullTranscript : jsstring;
  hardcodedResponseIndex : nat
}.

(** A pending [setTimeout] callback with the bindings it closed over. *)
Inductive TimerBody :=
| AgentResponseTimer (sc : Scenario) (env : PageState) (selected : Agent) (delay : Z)
| HardcodedResponseTimer (agent : Agent) (response : jsstring).

Record SessionSummary := {
  ss_scenarioId : option jsstring;
  ss_date : Z;
  ss_score : Z;
  ss_duration : Z;
  ss_difficulty : DifficultyLevel;
  ss_transcript : option jsstring
}.

(** The page as a whole: live React state, the [useRef] cells, the timer
    table of the browser and the "practice-sessions" entry of local
    storage. *)
Record World := {
  st : PageState;
  scheduledTurnRef : option Z;
  agentResponseTimers : list nat;
  lastTranscriptTimeRef : Z;
  qaTimerRef : option nat;
  timers : gmap nat TimerBody;
  nextTimer : nat;
  practiceSessions : list SessionSummary
}.

Definition withMessages (f : list Message -> list Message) (s : PageState) : PageState :=
  Build_PageState (userSpeechBuffer s) (agents s) (f (messages s)) (convState s) (userInput s) (timeElapsed s)
    (isActive s) (difficulty s) (sessionEnded s) (finalScore s) (userExtrasForContext s)
    (talkingPointsForContext s) (useGeminiInterviewer s) (geminiConversationHistory s)
    (isGeminiProcessing s) (currentAgentIndex s) (interimTranscript s) (fullTranscript s)
    (hardcodedResponseIndex s).

Definition withConvState (f : ConversationState -> ConversationState) (s : PageState)
  : PageState :=
  Build_PageState (userSpeechBuffer s) (agents s) (messages s) (f (convState s)) (userInput s) (timeElapsed s)
    (isActive s) (difficulty s) (sessionEnded s) (finalScore s) (userExtrasForContext s)
    (talkingPointsForContext s) (useGeminiInterviewer s) (geminiConversationHistory s)
    (isGeminiProcessing s) (currentAgentIndex s) (interimTranscript s) (fullTranscript s)
    (hardcodedResponseIndex s).

Definition withUserInput (v : jsstring) (s : PageState) : PageState :=
  Build_PageState (userSpeechBuffer s) (agents s) (messages s) (convState s) v (timeElapsed s)
    (isActive s) (difficulty s) (sessionEnded s) (finalScore s) (userExtrasForContext s)
    (talkingPointsForContext s) (useGeminiInterviewer s) (geminiConversationHistory s)
    (isGeminiProcessing s) (currentAgentIndex s) (interimTranscript s) (fullTranscript s)
    (hardcodedResponseIndex s).

Definition withTimeElapsed (f : Z -> Z) (s : PageState) : PageState :=
  Build_PageState (userSpeechBuffer s) (agents s) (messages s) (convState s) (userInput s)
    (f (timeElapsed s))
    (isActive s) (difficulty s) (sessionEnded s) (finalScore s) (userExtrasForContext s)
    (talkingPointsForContext s) (useGeminiInterviewer s) (geminiConversationHistory s)
    (isGeminiProcessing s) (currentAgentIndex s) (interimTranscript s) (fullTranscript s)
    (hardcodedResponseIndex s).

Definition withIsActive (v : bool) (s : PageState) : PageState :=
  Build_PageState (userSpeechBuffer s) (agents s) (messages s) (convState s) (userInput s) (timeElapsed s)
    v (difficulty s) (sessionEnded s) (finalScore s) (userExtrasForContext s)
    (talkingPointsForContext s) (useGeminiInterviewer s) (geminiConversationHistory s)
    (isGeminiProcessing s) (currentAgentIndex s) (interimTranscript s) (fullTranscript s)
    (hardcodedResponseIndex s).

Definition withDifficulty (v : DifficultyLevel) (s : PageState) : PageState :=
  Build_PageState (userSpeechBuffer s) (agents s) (messages s) (convState s) (userInput s) (timeElapsed s)
    (isActive s) v (sessionEnded s) (finalScore s) (userExtrasForContext s)
    (talkingPointsForContext s) (useGeminiInterviewer s) (geminiConversationHistory s)
    (isGeminiProcessing s) (currentAgentIndex s) (interimTranscript s) (fullTranscript s)
    (hardcodedResponseIndex s).

Definition withSessionEnded (v : bool) (s : PageState) : PageState :=
  Build_PageState (userSpeechBuffer s) (agents s) (messages s) (convState s) (userInput s) (timeElapsed s)
    (isActive s) (difficulty s) v (finalScore s) (userExtrasForContext s)
    (talkingPointsForContext s) (useGeminiInterviewer s) (geminiConversationHistory s)
    (isGeminiProcessing s) (currentAgentIndex s) (interimTranscript s) (fullTranscript s)
    (hardcodedResponseIndex s).

Definition withFinalScore (v : Z) (s : PageState) : PageState :=
  Build_PageState (userSpeechBuffer s) (agents s) (messages s) (convState s) (userInput s) (timeElapsed s)
    (isActive s) (difficulty s) (sessionEnded s) v (userExtrasForContext s)
    (talkingPointsForContext s) (useGeminiInterviewer s) (geminiConversationHistory s)
    (isGeminiProcessing s) (currentAgentIndex s) (interimTranscript s) (fullTranscript s)
    (hardcodedResponseIndex s).

Definition withGeminiConversationHistory (v : list ConversationMessage) (s : PageState)
  : PageState :=
  Build_PageState (userSpeechBuffer s) (agents s) (messages s) (convState s) (userInput s) (timeElapsed s)
    (isActive s) (difficulty s) (sessionEnded s) (finalScore s) (userExtrasForContext s)
    (talkingPointsForContext s) (useGeminiInterviewer s) v
    (isGeminiProcessing s) (currentAgentIndex s) (interimTranscript s) (fullTranscript s)
    (hardcodedResponseIndex s).

Definition withIsGeminiProcessing (v : bool) (s : PageState) : PageState :=
  Build_PageState (userSpeechBuffer s) (agents s) (messages s) (convState s) (userInput s) (timeElapsed s)
    (isActive s) (difficulty s) (sessionEnded s) (finalScore s) (userExtrasForContext s)
    (talkingPointsForContext s) (useGeminiInterviewer s) (geminiConversationHistory s)
    v (currentAgentIndex s) (interimTranscript s) (fullTranscript s)
    (hardcodedResponseIndex s).

Definition withCurrentAgentIndex (f : nat -> nat) (s : PageState) : PageState :=
  Build_PageState (userSpeechBuffer s) (agents s) (messages s) (convState s) (userInput s) (timeElapsed s)
    (isActive s) (difficulty s) (sessionEnded s) (finalScore s) (userExtrasForContext s)
    (talkingPointsForContext s) (useGeminiInterviewer s) (geminiConversationHistory s)
    (isGeminiProcessing s) (f (currentAgentIndex s)) (interimTranscript s) (fullTranscript s)
    (hardcodedResponseIndex s).

Definition withInterimTranscript (v : jsstring) (s : PageState) : PageState :=
  Build_PageState (userSpeechBuffer s) (agents s) (messages s) (convState s) (userInput s) (timeElapsed s)
    (isActive s) (difficulty s) (sessionEnded s) (finalScore s) (userExtrasForContext s)
    (talkingPointsForContext s) (useGeminiInterviewer s) (geminiConversationHistory s)
    (isGeminiProcessing s) (currentAgentIndex s) v (fullTranscript s)
    (hardcodedResponseIndex s).

Definition withFullTranscript (f : jsstring -> jsstring) (s : PageState) : PageState :=
  Build_PageState (userSpeechBuffer s) (agents s) (messages s) (convState s) (userInput s) (timeElapsed s)
    (isActive s) (difficulty s) (sessionEnded s) (finalScore s) (userExtrasForContext s)
    (talkingPointsForContext s) (useGeminiInterviewer s) (geminiConversationHistory s)
    (isGeminiProcessing s) (currentAgentIndex s) (interimTranscript s) (f (fullTranscript s))
    (hardcodedResponseIndex s).

Definition withHardcodedResponseIndex (f : nat -> nat) (s : PageState) : PageState :=
  Build_PageState (userSpeechBuffer s) (agents s) (messages s) (convState s) (userInput s) (timeElapsed s)
    (isActive s) (difficulty s) (sessionEnded s) (finalScore s) (userExtrasForContext s)
    (talkingPointsForContext s) (useGeminiInterviewer s) (geminiConversationHistory s)
    (isGeminiProcessing s) (currentAgentIndex s) (interimTranscript s) (fullTranscript s)
    (f (hardcodedResponseIndex s)).

(** A state setter acts on the live state of the world. *)
Definition setState (f : PageState -> PageState) (w : World) : World :=
  Build_World (f (st w)) (scheduledTurnRef w) (agentResponseTimers w)
    (lastTranscriptTimeRef w) (qaTimerRef w) (timers w) (nextTimer w) (practiceSessions w).

Definition setScheduledTurn (v : option Z) (w : World) : World :=
  Build_World (st w) v (agentResponseTimers w)
    (lastTranscriptTimeRef w) (qaTimerRef w) (timers w) (nextTimer w) (practiceSessions w).

Definition setAgentResponseTimers (v : list nat) (w : World) : World :=
  Build_World (st w) (scheduledTurnRef w) v
    (lastTranscriptTimeRef w) (qaTimerRef w) (timers w) (nextTimer w) (practiceSessions w).

Definition setLastTranscriptTime (v : Z) (w : World) : World :=
  Build_World (st w) (scheduledTurnRef w) (agentResponseTimers w)
    v (qaTimerRef w) (timers w) (nextTimer w) (practiceSessions w).

Definition setPracticeSessions (v : list SessionSummary) (w : World) : World :=
  Build_World (st w) (scheduledTurnRef w) (agentResponseTimers w)
    (lastTranscriptTimeRef w) (qaTimerRef w) (timers w) (nextTimer w) v.

(** [setTimeout(body, _)]: the browser hands out a fresh handle. *)
Definition setTimeout (body : TimerBody) (w : World) : nat * World :=
  (nextTimer w,
   Build_World (st w) (scheduledTurnRef w) (agentResponseTimers w)
     (lastTranscriptTimeRef w) (qaTimerRef w)
     (<[nextTimer w := body]> (timers w)) (S (nextTimer w)) (practiceSessions w)).

Definition clearTimeout (timer : nat) (w : World) : World :=
  Build_World (st w) (scheduledTurnRef w) (agentResponseTimers w)
    (lastTranscriptTimeRef w) (qaTimerRef w)
    (delete timer (timers w)) (nextTimer w) (practiceSessions w).

(** How a callback ends: it returns, or an exception leaves it. *)
Inductive Completion :=
| Returned (w : World)
| Threw (e : JsError) (w : World).

Definition worldOf (c : Completion) : World :=
  match c with Returned w => w | Threw _ w => w end.

Definition agentMessage (agent : Agent) (text : jsstring) (now : Z) (rnd : jsstring)
  : Message :=
  {| msg_id := lit "msg-" ++ showZ now ++ lit "-" ++ rnd;
     agentId := agent_id agent;
     agentName := agent_name agent;
     content := text;
     timestamp := now;
     isUser := false |}.

Definition addAgentMessage (agent : Agent) (text : jsstring) (now : Z) (rnd : jsstring)
    (w : World) : World :=
  setState (withMessages (fun prev => prev ++ [agentMessage agent text now rnd])) w.

Definition userMessage (text : jsstring) (now : Z) : Message :=
  {| msg_id := lit "msg-" ++ showZ now;
     agentId := lit "user";
     agentName := lit "You";
     content := text;
     timestamp := now;
     isUser := true |}.

Section Scheduler.

(** [getScenarioById(resolvedParams.scenarioId)], fixed for the page. *)
Variable scenario : option Scenario.

(** [generateAgentResponse] of lib/agent-responses, the text generator:
    any function, which may also throw. *)
Variable generateAgentResponse :
  jsstring -> Agent -> DifficultyLevel -> list jsstring -> AgentPromptContext
  -> jsstring + JsError.

(** The callback [scheduleAgentResponse] hands to [setTimeout].  [sc],
    [env] and [selected] are the bindings it closed over; the ref cell and
    the functional updates are those of the world it runs in. *)
Definition agentResponseCallback (sc : Scenario) (env : PageState) (selected : Agent)
    (now : Z) (rnd : jsstring) (w : World) : Completion :=
  if sessionEnded env then Returned w else
  let current := convState env in
  if negb (canGenerateAgentResponse current) then Returned w else
  if negb (bool_decide (scheduledTurnRef w = Some (turnIndex current))) then Returned w else
  let conversationHistory :=
    List.map (fun m => if isUser m
                       then lit "You: " ++ content m
                       else agentName m ++ lit ": " ++ content m)
             (messages env) in
  let ctx :=
    {| scenarioBasePrompt := basePrompt sc;
       userExtras := userExtrasForContext env;
       talkingPoints := talkingPointsForContext env;
       ctx_presentational := presentational sc |} in
  match generateAgentResponse (scen_type sc) selected (difficulty env)
          conversationHistory ctx with
  | inr e => Threw e w
  | inl response =>
      let w1 := addAgentMessage selected response now rnd w in
      let w2 :=
        setState (withConvState (fun prev => advanceAfterAgentResponse prev (agent_id selected)))
          w1 in
      Returned (setScheduledTurn None w2)
  end.

(** [scheduleAgentResponse(stateSnapshot?)]; [delay] is the value
    [getResponseDelay(difficulty)] returned. *)
Definition scheduleAgentResponse (env : PageState) (stateSnapshot : option ConversationState)
    (delay : Z) (w : World) : World :=
  match scenario with
  | None => w
  | Some sc =>
      if bool_decide (length (agents env) = 0%nat) || sessionEnded env then w else
      let snapshot := default (convState env) stateSnapshot in
      if negb (canGenerateAgentResponse snapshot) then w else
      if bool_decide (scheduledTurnRef w = Some (turnIndex snapshot)) then w else
      let w1 := setScheduledTurn (Some (turnIndex snapshot)) w in
      match selectAgentToSpeak (messages env) sc (agents env) ActiveHost with
      | None => setScheduledTurn None w1
      | Some selected =>
          let '(timer, w2) := setTimeout (AgentResponseTimer sc env selected delay) w1 in
          setAgentResponseTimers (agentResponseTimers w2 ++ [timer]) w2
      end
  end.

(** The callback of the welcome timer of the setup effect (local agents):
    the first generated agent greets and the turn advances. *)
Definition welcomeCallback (generatedAgents : list Agent) (now : Z) (rnd : jsstring)
    (w : World) : World :=
  match generatedAgents with
  | [] => w
  | first :: _ =>
      let welcomeMessage :=
        match emotionPrefix first with
        | Some prefix =>
            if truthy prefix
            then prefix ++ lit " Hello! Welcome to the session. Feel free to introduce yourself!"
            else lit "Hello! Welcome to the session. Feel free to introduce yourself!"
        | None => lit "Hello! Welcome to the session. Feel free to introduce yourself!"
        end in
      let w1 := addAgentMessage first welcomeMessage now rnd w in
      setState (withConvState (fun prev => advanceAfterAgentResponse prev (agent_id first))) w1
  end.

End Scheduler.

(** *** The practice page with the remote interviewer *)

Module RemoteInterviewer.

Section Handlers.

Variable scenario : option Scenario.

Variable generateAgentResponse :
  jsstring -> Agent -> DifficultyLevel -> list jsstring -> AgentPromptContext
  -> jsstring + JsError.

(** [calculateScore] of lib/agent-responses: any function. *)
Variable calculateScore : nat -> Z -> DifficultyLevel -> Z.

(** [handleGeminiInterviewerResponse] up to its [await fetch(...)]. *)
Definition handleGeminiInterviewerResponse (env : PageState) (userText : jsstring) (w : World)
  : World * option Request :=
  if isGeminiProcessing env || bool_decide (scenario = None) then (w, None) else
  let w1 := setState (withIsGeminiProcessing true) w in
  (w1, Some {| req_userInput := userText;
               req_conversationHistory := geminiConversationHistory env |}).

Definition fallbackInterviewer : Agent :=
  {| agent_id := lit "ai";
     agent_name := lit "AI Interviewer";
     voiceId := lit "b5f4515fd395410b9ed3aef6fa51d9a0";
     emotionPrefix := None |}.

(** [handleGeminiInterviewerResponse] from the point where [fetch]
    settles: the rest of [try], then [catch], then [finally]. *)
Definition handleGeminiInterviewerResponse_settled (env : PageState) (outcome : FetchOutcome)
    (now : Z) (rnd : jsstring) (w : World) : World :=
  let w1 :=
    match awaitReply outcome with
    | inr (assistantText, history) =>
        let w' := setState (withGeminiConversationHistory history) w in
        let aiAgent :=
          match agents env with
          | [] => fallbackInterviewer
          | _ :: _ =>
              nth (currentAgentIndex env mod length (agents env)) (agents env)
                fallbackInterviewer
          end in
        let w'' := setState (withCurrentAgentIndex (fun prev => S prev)) w' in
        setState (withMessages (fun prev => prev ++ [agentMessage aiAgent assistantText now rnd]))
          w''
    | inl error =>
        let errorMessage :=
          {| msg_id := lit "error-" ++ showZ now;
             agentId := lit "system";
             agentName := lit "System";
             content := errorContent error;
             timestamp := now;
             isUser := false |} in
        setState (withMessages (fun prev => prev ++ [errorMessage])) w
    end in
  setState (withIsGeminiProcessing false) w1.

(** The functional update both the speech handler and [handleSendMessage]
    pass to [setConvState]. *)
Definition userTurn (env : PageState) (delay : Z) (w : World) : World :=
  let prev := convState (st w) in
  let next := updateStateOnUserMessage prev in
  let w1 :=
    if negb (bool_decide (length (agents env) = 0%nat)) && negb (sessionEnded env)
    then scheduleAgentResponse scenario env (Some next) delay w
    else w in
  setState (withConvState (fun _ => next)) w1.

(** [recognition.onresult] of the practice page. *)
Definition onresult (env : PageState) (event : SpeechEvent) (now delay : Z) (w : World)
  : World * option Request :=
  let '(interimText, finalText) := collectTranscripts event in
  let w1 := setState (withInterimTranscript interimText) w in
  if truthy (trim finalText) then
    if 2000 <? now - lastTranscriptTimeRef w1 then
      let w2 := setState (withMessages (fun prev => prev ++ [userMessage (trim finalText) now])) w1 in
      let w3 := setState (withFullTranscript (fun prev => prev ++ lit " " ++ finalText)) w2 in
      let '(w4, request) :=
        if useGeminiInterviewer env
        then handleGeminiInterviewerResponse env (trim finalText) w3
        else (userTurn env delay w3, None) in
      (setLastTranscriptTime now w4, request)
    else (w1, None)
  else (w1, None).

Definition handleSendMessage (env : PageState) (now delay : Z) (w : World) : World :=
  if negb (truthy (trim (userInput env))) then w else
  let w1 := setState (withMessages (fun prev => prev ++ [userMessage (userInput env) now])) w in
  let w2 := setState (withUserInput []) w1 in
  userTurn env delay w2.

Definition handleEndSession (env : PageState) (now : Z) (w : World) : World :=
  let w1 := setState (withIsActive false) w in
  let w2 := setState (withSessionEnded true) w1 in
  let w3 := fold_left (fun acc timer => clearTimeout timer acc) (agentResponseTimers w2) w2 in
  let w4 := setAgentResponseTimers [] w3 in
  let userMessages := length (List.filter isUser (messages env)) in
  let score := calculateScore userMessages (timeElapsed env) (difficulty env) in
  let w5 := setState (withFinalScore score) w4 in
  let summary :=
    {| ss_scenarioId := scen_id <$> scenario;
       ss_date := now;
       ss_score := score;
       ss_duration := timeElapsed env;
       ss_difficulty := difficulty env;
       ss_transcript :=
         if truthy (trim (fullTranscript env)) then Some (trim (fullTranscript env)) else None |} in
  setPracticeSessions (practiceSessions w5 ++ [summary]) w5.

End Handlers.

End RemoteInterviewer.

(** *** The practice page with the presentation flow *)

Module PresentationFlow.

Definition INVESTMENT_RESPONSES : list jsstring :=
  [ lit "That's a great point about diversification. As the document mentions, you should avoid concentrated bets and favor broad index funds.";
    lit "Exactly! The core principle is to pay yourself first by automating contributions each payday.";
    lit "You're right to focus on expense ratios. Target less than 0.20% for stock index funds and less than 0.10% for bond funds.";
    lit "Good question about the emergency fund. The document recommends saving 3-6 months of expenses in a high-yield savings account first.";
    lit "The three model portfolios are Conservative 60/40, Balanced 70/30, and Aggressive 90/10 for stocks to bonds ratio.";
    lit "For college students, you can start investing with as little as $50 per month. Time in the market beats timing the market.";
    lit "The step-by-step plan starts with your 401(k) up to the employer match, then HSA if eligible, then IRA, and finally a taxable brokerage.";
    lit "Remember, the rule of thumb is to invest about 15% of gross income for retirement, or 20% if you're starting later." ].

Section Handlers.

Variable scenario : option Scenario.

Variable generateAgentResponse :
  jsstring -> Agent -> DifficultyLevel -> list jsstring -> AgentPromptContext
  -> jsstring + JsError.

Variable calculateScore : nat -> Z -> DifficultyLevel -> Z.

(** [generateHardcodedResponse]; [r] stands for
    [Math.floor(Math.random() * agents.length)], an index below the
    length, taken modulo it. *)
Definition generateHardcodedResponse (env : PageState) (r : nat) (w : World) : World :=
  match agents env with
  | [] => w
  | first :: _ =>
      if sessionEnded env then w else
      let agent := nth (r mod length (agents env)) (agents env) first in
      let response :=
        nth (hardcodedResponseIndex env mod length INVESTMENT_RESPONSES)
          INVESTMENT_RESPONSES [] in
      let w1 := setState (withHardcodedResponseIndex (fun prev => S prev)) w in
      snd (setTimeout (HardcodedResponseTimer agent response) w1)
  end.

(** The callback [generateHardcodedResponse] hands to [setTimeout]. *)
Definition hardcodedResponseCallback (agent : Agent) (response : jsstring)
    (now : Z) (rnd : jsstring) (w : World) : World :=
  setState (withMessages (fun prev => prev ++ [agentMessage agent response now rnd])) w.

Definition isPresentation : bool :=
  match scenario with
  | Some sc => bool_decide (scen_id sc = lit "presentation")
  | None => false
  end.

Definition handleSendMessage (env : PageState) (now delay : Z) (r : nat) (w : World) : World :=
  if negb (truthy (trim (userInput env))) then w else
  let message :=
    {| msg_id := lit "msg-" ++ showZ now;
       agentId := lit "user";
       agentName := lit "You";
       content := userInput env;
       timestamp := now;
       isUser := true |} in
  let w1 := setState (withMessages (fun prev => prev ++ [message])) w in
  let w2 := setState (withUserInput []) w1 in
  if isPresentation then generateHardcodedResponse env r w2
  else RemoteInterviewer.userTurn scenario env delay w2.

Definition handleEndSession (env : PageState) (now : Z) (w : World) : World :=
  let w1 := setState (withIsActive false) w in
  let w2 := setState (withSessionEnded true) w1 in
  let w3 := fold_left (fun acc timer => clearTimeout timer acc) (agentResponseTimers w2) w2 in
  let w4 := setAgentResponseTimers [] w3 in
  let w4' := match qaTimerRef w4 with Some timer => clearTimeout timer w4 | None => w4 end in
  let userMessages := length (List.filter isUser (messages env)) in
  let score := calculateScore userMessages (timeElapsed env) (difficulty env) in
  let w5 := setState (withFinalScore score) w4' in
  let summary :=
    {| ss_scenarioId := scen_id <$> scenario;
       ss_date := now;
       ss_score := score;
       ss_duration := timeElapsed env;
       ss_difficulty := difficulty env;
       ss_transcript :=
         if truthy (trim (fullTranscript env)) then Some (trim (fullTranscript env))
         else if truthy (trim (userSpeechBuffer env)) then Some (trim (userSpeechBuffer env))
         else None |} in
  setPracticeSessions (practiceSessions w5 ++ [summary]) w5.

End Handlers.

End PresentationFlow.

End Practice.

(** ** A session of a practice page as a sequence of events *)

Module Session.

Import Practice.

Inductive Page := RemoteInterviewerPage | PresentationPage.

(** What can happen to a mounted page.  A handler that the user triggers
    is the one of the latest render, so it closes over the state at the
    time of the event; a timer callback closes over the state of the
    render that scheduled it.  The speech handler is created once, by the
    first [startListening] after the mount effects, and closes over the
    state of that render for good ([recognitionRef.current] is never
    reset); the presentation page has speech recognition disabled. *)
Inductive Event :=
| EvInput (value : jsstring)                      (* typing into the message box *)
| EvSend (now delay : Z) (r : nat)                (* Send button or Enter *)
| EvFire (timer : nat) (now : Z) (rnd : jsstring) (* the browser runs a pending timer *)
| EvEnd (now : Z)                                 (* End button or time limit *)
| EvWelcome (now : Z) (rnd : jsstring)            (* welcome timer of the setup effect *)
| EvMessages (ms : list Message)                  (* any other writer of [messages] *)
| EvDifficulty (level : DifficultyLevel)
| EvTick
| EvSpeech (event : SpeechEvent) (now delay : Z)  (* recognition.onresult *)
| EvReply (outcome : FetchOutcome) (now : Z) (rnd : jsstring).
                                                  (* the endpoint call settles *)

Section Run.

Variable page : Page.
Variable scenario : option Scenario.
Variable generateAgentResponse :
  jsstring -> Agent -> DifficultyLevel -> list jsstring -> AgentPromptContext
  -> jsstring + JsError.
Variable calculateScore : nat -> Z -> DifficultyLevel -> Z.

(** [generateAgents(scenario)] of lib/scenarios. *)
Variable generatedAgents : list Agent.

(** The page once its mount effects have run: the agents are generated,
    every other state variable has its initial value. *)
Definition initialState : PageState :=
  {| userSpeechBuffer := [];
     agents := generatedAgents;
     messages := [];
     convState := initConversationState;
     userInput := [];
     timeElapsed := 0;
     isActive := true;
     difficulty := medium;
     sessionEnded := false;
     finalScore := 0;
     userExtrasForContext := [];
     talkingPointsForContext := [];
     useGeminiInterviewer := true;
     geminiConversationHistory := [];
     isGeminiProcessing := false;
     currentAgentIndex := 0;
     interimTranscript := [];
     fullTranscript := [];
     hardcodedResponseIndex := 0 |}.

Definition initialWorld (mountTime : Z) (stored : list SessionSummary) : World :=
  {| st := initialState;
     scheduledTurnRef := None;
     agentResponseTimers := [];
     lastTranscriptTimeRef := mountTime;
     qaTimerRef := None;
     timers := ∅;
     nextTimer := 1;
     practiceSessions := stored |}.

(** The browser runs timer [timer] if it is still pending, and forgets it. *)
Definition fireTimer (timer : nat) (now : Z) (rnd : jsstring) (w : World) : World :=
  match timers w !! timer with
  | None => w
  | Some body =>
      let w' := clearTimeout timer w in
      match body with
      | AgentResponseTimer sc env selected _ =>
          worldOf (agentResponseCallback generateAgentResponse sc env selected now rnd w')
      | HardcodedResponseTimer agent response =>
          PresentationFlow.hardcodedResponseCallback agent response now rnd w'
      end
  end.

Definition step (ev : Event) (w : World) : World :=
  match ev with
  | EvInput value => setState (withUserInput value) w
  | EvSend now delay r =>
      match page with
      | RemoteInterviewerPage =>
          RemoteInterviewer.handleSendMessage scenario (st w) now delay w
      | PresentationPage =>
          PresentationFlow.handleSendMessage scenario (st w) now delay r w
      end
  | EvFire timer now rnd => fireTimer timer now rnd w
  | EvEnd now =>
      match page with
      | RemoteInterviewerPage =>
          RemoteInterviewer.handleEndSession scenario calculateScore (st w) now w
      | PresentationPage =>
          PresentationFlow.handleEndSession scenario calculateScore (st w) now w
      end
  | EvWelcome now rnd => welcomeCallback generatedAgents now rnd w
  | EvMessages ms => setState (withMessages (fun _ => ms)) w
  | EvDifficulty level => setState (withDifficulty level) w
  | EvTick => setState (withTimeElapsed (fun prev => prev + 1)) w
  | EvSpeech event now delay =>
      match page with
      | RemoteInterviewerPage =>
          (RemoteInterviewer.onresult scenario initialState event now delay w).1
      | PresentationPage => w
      end
  | EvReply outcome now rnd =>
      match page with
      | RemoteInterviewerPage =>
          RemoteInterviewer.handleGeminiInterviewerResponse_settled initialState
            outcome now rnd w
      | PresentationPage => w
      end
  end.

Definition run (evs : list Event) (w : World) : World :=
  fold_left (fun acc ev => step ev acc) evs w.

Definition reachable (w : World) : Prop :=
  exists mountTime stored evs, w = run evs (initialWorld mountTime stored).

(** The timers of [scheduleAgentResponse] that are still pending. *)
Definition isAgentResponseTimer (body : TimerBody) : bool :=
  match body with
  | AgentResponseTimer _ _ _ _ => true
  | HardcodedResponseTimer _ _ => false
  end.

(** Every pending timer of the scheduler is recorded in
    [agentResponseTimers], and none is pending once the session has
    ended. *)
Definition tracked (w : World) : Prop :=
  forall timer body,
    timers w !! timer = Some body -> isAgentResponseTimer body = true ->
    timer ∈ agentResponseTimers w /\ sessionEnded (st w) = false.

(** What the closures of the pending timers hold: each was created by a
    render in which no agent turn was awaited; and while the live state
    awaits an agent turn of a running session, the marker names its turn. *)
Definition quiet (w : World) : Prop :=
  agents (st w) = generatedAgents
  /\ (forall timer sc env selected delay,
        timers w !! timer = Some (AgentResponseTimer sc env selected delay) ->
        awaitingAgentTurn (convState env) = false)
  /\ (awaitingAgentTurn (convState (st w)) = true ->
      sessionEnded (st w) = false -> generatedAgents <> [] -> scenario <> None ->
      scheduledTurnRef w = Some (turnIndex (convState (st w)))).

(** The pending timers of the scheduler were created at or before the live
    turn; one created at the live turn is named by the marker; and no two
    of them were created at the same turn. *)
Definition scheduledOnce (w : World) : Prop :=
  (forall timer sc env selected delay,
     timers w !! timer = Some (AgentResponseTimer sc env selected delay) ->
     turnIndex (convState env) <= turnIndex (convState (st w))
     /\ (turnIndex (convState env) = turnIndex (convState (st w)) ->
         scheduledTurnRef w = Some (turnIndex (convState (st w)))))
  /\ (forall timer1 timer2 sc1 env1 selected1 delay1 sc2 env2 selected2 delay2,
        timers w !! timer1 = Some (AgentResponseTimer sc1 env1 selected1 delay1) ->
        timers w !! timer2 = Some (AgentResponseTimer sc2 env2 selected2 delay2) ->
        turnIndex (convState env1) = turnIndex (convState env2) ->
        timer1 = timer2).

End Run.

End Session.

(** ** Sample data for the concrete sessions below *)

Module Samples.

Import Practice Session.

Definition host : Agent :=
  {| agent_id := lit "host"; agent_name := lit "Host"; voiceId := lit "v1";
     emotionPrefix := None |}.

Definition guest : Agent :=
  {| agent_id := lit "guest"; agent_name := lit "Guest"; voiceId := lit "v2";
     emotionPrefix := None |}.

Definition critic : Agent :=
  {| agent_id := lit "critic"; agent_name := lit "Critic"; voiceId := lit "v3";
     emotionPrefix := None |}.

Definition party : Scenario :=
  {| scen_id := lit "party"; scen_type := lit "party"; basePrompt := lit "Mingle.";
     presentational := None; duration := 300 |}.

Definition cannedReply (type : jsstring) (a : Agent) (d : DifficultyLevel)
    (history : list jsstring) (ctx : AgentPromptContext) : jsstring + JsError :=
  inl (lit "Nice to meet you.").

Definition flatScore (userMessages : nat) (elapsed : Z) (d : DifficultyLevel) : Z := 50.

Definition said (a : Agent) (text : string) : Message :=
  {| msg_id := lit "m"; agentId := agent_id a; agentName := agent_name a;
     content := lit text; timestamp := 0; isUser := false |}.

Definition fromHost (text : string) : Message := said host text.

Definition fromGuest (text : string) : Message := said guest text.

Definition fromUser (text : string) : Message :=
  {| msg_id := lit "u"; agentId := lit "user"; agentName := lit "You";
     content := lit text; timestamp := 0; isUser := true |}.

(** A mounted party session with two agents. *)
Definition mounted : World :=
  initialWorld [host; guest] 0 [].

Definition partyRun (evs : list Event) (w : World) : World :=
  run RemoteInterviewerPage (Some party) cannedReply flatScore [host; guest] evs w.

(** The user has typed "hello" ... *)
Definition typed : World := partyRun [EvInput (lit "hello")] mounted.

(** ... and sent it at time 1000, which schedules a reply of the host ... *)
Definition sent : World := partyRun [EvSend 1000 5000 0] typed.

(** ... and the welcome timer of the setup effect runs before the reply. *)
Definition greeted : World := partyRun [EvWelcome 2000 (lit "0.1")] sent.

(** The interview page before any speech, mounted at time 0. *)
Definition idle : Interview.State :=
  {| Interview.messages := [];
     Interview.conversationHistory := [];
     Interview.isProcessing := false;
     Interview.sessionActive := true;
     Interview.interimTranscript := [];
     Interview.isListening := true;
     Interview.ttsEnabled := true;
     Interview.lastTranscriptTimeRef := 0 |}.

(** One final recognition result. *)
Definition heard (words : string) : SpeechEvent :=
  {| resultIndex := 0; results := [ {| transcript := lit words; isFinal := true |} ] |}.

End Samples.

(** ** The voice analysis report *)

Module VoiceAnalysis.

Inductive Grade := A | B | C | D.

(** The values of the ten [Math.floor(Math.random() * n)] of
    [generateVoiceAnalysis], in the order the function draws them; draw
    number [i] is an integer from 0 up to, not including, its [n]. *)
Record Draws := {
  drawOverall : Z;      (* n = 30 *)
  drawStutters : Z;     (* n = 8 *)
  drawFillers : Z;      (* n = 3 *)
  drawRepetitions : Z;  (* n = 10 *)
  drawWpm : Z;          (* n = 50 *)
  drawSpeaking : Z;     (* n = 30 *)
  drawPause : Z;        (* n = 10 *)
  drawClarity : Z;      (* n = 15 *)
  drawVolume : Z;       (* n = 20 *)
  drawPitch : Z         (* n = 20 *)
}.

Definition below (n d : Z) : bool := (0 <=? d) && (d <? n).

Definition drawn (d : Draws) : bool :=
  below 30 (drawOverall d) && below 8 (drawStutters d) && below 3 (drawFillers d)
  && below 10 (drawRepetitions d) && below 50 (drawWpm d) && below 30 (drawSpeaking d)
  && below 10 (drawPause d) && below 15 (drawClarity d) && below 20 (drawVolume d)
  && below 20 (drawPitch d).

Record Counted := {
  count : Z;
  grade : Grade
}.

Record FluencyAnalysis := {
  stutters : Counted;
  fillerWords : Counted;
  repetitions : Counted
}.

Record SpeechPace := {
  wordsPerMinute : Z;
  paceGrade : Grade;
  speakingTime : jsstring;
  pauseTime : jsstring;
  idealRange : jsstring
}.

Record VoiceQuality := {
  clarity : Z;
  volumeConsistency : Z;
  pitchConsistency : Z
}.

Record VoiceAnalysisData := {
  overallScore : Z;
  fluencyAnalysis : FluencyAnalysis;
  speechPace : SpeechPace;
  voiceQuality : VoiceQuality;
  areasForImprovement : list jsstring
}.

(** [value <= thresholds[i]]; a missing entry compares false. *)
Definition atMost (value : Z) (thresholds : list Z) (i : nat) : bool :=
  match nth_error thresholds i with
  | Some t => value <=? t
  | None => false
  end.

Definition getGrade (value : Z) (thresholds : list Z) : Grade :=
  if atMost value thresholds 0 then A
  else if atMost value thresholds 1 then B
  else if atMost value thresholds 2 then C
  else D.

Definition getPaceGrade (wpm : Z) : Grade :=
  if (120 <=? wpm) && (wpm <=? 150) then A
  else if (100 <=? wpm) && (wpm <? 120) then B
  else if (80 <=? wpm) && (wpm <? 100) then C
  else D.

(** [s.padStart(n, c)] for a one-unit filler [c]. *)
Definition padStart (n : nat) (c : N) (s : jsstring) : jsstring :=
  repeat c (n - length s) ++ s.

Definition pushIf (condition : bool) (entry : string) (l : list jsstring) : list jsstring :=
  if condition then l ++ [lit entry] else l.

Definition generateVoiceAnalysis (d : Draws) : VoiceAnalysisData :=
  let overallScore := drawOverall d + 65 in
  let stutters := drawStutters d in
  let fillerWords := drawFillers d in
  let repetitions := drawRepetitions d + 3 in
  let wpm := drawWpm d + 80 in
  let speakingTimeSeconds := drawSpeaking d + 30 in
  let pauseTimeSeconds := drawPause d in
  let clarity := drawClarity d + 85 in
  let volumeConsistency := drawVolume d + 75 in
  let pitchConsistency := drawPitch d + 75 in
  let improvements0 : list jsstring := [] in
  let improvements1 :=
    pushIf (3 <? stutters)
      "Reduce stuttering by speaking more slowly and taking deep breaths before starting."
      improvements0 in
  let improvements2 :=
    pushIf ((wpm <? 100) || (150 <? wpm))
      "Increase your speaking pace slightly to maintain audience engagement."
      improvements1 in
  let improvements3 :=
    pushIf (0 <? fillerWords)
      "Minimize filler words like 'um' and 'uh' by pausing instead when thinking."
      improvements2 in
  let improvements4 :=
    pushIf (clarity <? 90)
      "Improve clarity by articulating words more precisely."
      improvements3 in
  let improvements5 :=
    pushIf (volumeConsistency <? 85)
      "Maintain consistent volume throughout your speech."
      improvements4 in
  let improvements6 :=
    pushIf (pitchConsistency <? 85)
      "Vary your pitch more to keep the audience engaged."
      improvements5 in
  let improvements :=
    match improvements6 with
    | [] =>
        [ lit "Continue practicing to maintain your excellent speaking skills.";
          lit "Try speaking in front of larger audiences to build confidence." ]
    | _ :: _ => improvements6
    end in
  {| overallScore := overallScore;
     fluencyAnalysis :=
       {| stutters := {| count := stutters; grade := getGrade stutters [2; 5; 8] |};
          fillerWords := {| count := fillerWords; grade := getGrade fillerWords [0; 2; 4] |};
          repetitions := {| count := repetitions; grade := C |} |};
     speechPace :=
       {| wordsPerMinute := wpm;
          paceGrade := getPaceGrade wpm;
          speakingTime := lit "0:" ++ padStart 2 48 (showZ speakingTimeSeconds);
          pauseTime := lit "0:" ++ padStart 2 48 (showZ pauseTimeSeconds);
          idealRange := lit "120-150 wpm" |};
     voiceQuality :=
       {| clarity := clarity;
          volumeConsistency := volumeConsistency;
          pitchConsistency := pitchConsistency |};
     areasForImprovement := take 2 improvements |}.

Definition getScoreColor (score : Z) : jsstring :=
  if 90 <=? score then lit "text-green-600"
  else if 75 <=? score then lit "text-blue-600"
  else if 60 <=? score then lit "text-yellow-600"
  else lit "text-red-600".

(** How many of the six conditions of [generateVoiceAnalysis] call for an
    improvement. *)
Definition findings (d : Draws) : nat :=
  length
    (List.filter (fun b : bool => b)
       [ 3 <? drawStutters d;
         (drawWpm d + 80 <? 100) || (150 <? drawWpm d + 80);
         0 <? drawFillers d;
         drawClarity d + 85 <? 90;
         drawVolume d + 75 <? 85;
         drawPitch d + 75 <? 85 ]).

Definition isDigit (c : N) : bool := ((48 <=? c) && (c <=? 57))%N.

(** [text] is "0:" followed by the two decimal digits of [seconds]. *)
Definition readsAs (seconds : Z) (text : jsstring) : bool :=
  match text with
  | [zero; colon; tens; units] =>
      (zero =? 48)%N && (colon =? 58)%N && isDigit tens && isDigit units
      && (10 * (Z.of_N tens - 48) + (Z.of_N units - 48) =? seconds)
  | _ => false
  end.

(** A sample of draws: a fluent, clear speaker whose pitch is flat. *)
Definition flatPitch : Draws :=
  {| drawOverall := 20; drawStutters := 1; drawFillers := 0; drawRepetitions := 4;
     drawWpm := 45; drawSpeaking := 7; drawPause := 3; drawClarity := 10;
     drawVolume := 15; drawPitch := 2 |}.

End VoiceAnalysis.

(** ** The presentation flow and the questions of the audience *)

Module Presentation.

Record FlowSection := {
  section_id : jsstring;
  title : jsstring;
  goals : list jsstring
}.

Record PresentationalFlow := {
  intro : FlowSection;
  sections : list FlowSection;
  conclusion : FlowSection;
  qa : FlowSection
}.

Definition HARDCODED_FLOW : PresentationalFlow :=
  {| intro :=
       {| section_id := lit "intro";
          title := lit "Opening: Why Start Now";
          goals :=
            [ lit "I want to show you that $100/month at age 20 becomes $1.1 million at 65";
              lit "I want to share three simple steps you can take today" ] |};
     sections :=
       [ {| section_id := lit "section-1";
            title := lit "The Only Three Things You Need";
            goals :=
              [ lit "I want you to know: 1) Open a Roth IRA, 2) Buy index funds (VTI), 3) Automate $50/month";
                lit "I want to explain that index funds give you instant diversification with 0.04% fees" ] |};
         {| section_id := lit "section-2";
            title := lit "Start Today, Not Tomorrow";
            goals :=
              [ lit "I want to tell you that waiting 10 years costs you half your retirement money";
                lit "I want you to download Vanguard app right now and open an account - it takes 5 minutes" ] |} ];
     conclusion :=
       {| section_id := lit "conclusion";
          title := lit "Your Action Item";
          goals :=
            [ lit "I want you to commit: Open a Roth IRA tonight and invest your first dollar" ] |};
     qa :=
       {| section_id := lit "qa";
          title := lit "Your Questions";
          goals := [ lit "I want to answer all your questions about getting started" ] |} |}.

Definition getAllSections (presentationFlow : option PresentationalFlow) : list FlowSection :=
  match presentationFlow with
  | None => []
  | Some flow => intro flow :: sections flow ++ [conclusion flow; qa flow]
  end.

(** [Array.prototype.findIndex], counting from [from]: -1 when no element
    passes the test. *)
Fixpoint findIndexFrom {T : Type} (test : T -> bool) (from : Z) (l : list T) : Z :=
  match l with
  | [] => -1
  | x :: rest => if test x then from else findIndexFrom test (from + 1) rest
  end.

Definition findIndex {T : Type} (test : T -> bool) (l : list T) : Z :=
  findIndexFrom test 0 l.

(** [advanceToNextSection]: the value of [currentFlowSection] it leaves. *)
Definition advanceToNextSection (presentationFlow : option PresentationalFlow)
    (currentFlowSection : jsstring) : jsstring :=
  let allSections := getAllSections presentationFlow in
  let currentIndex :=
    findIndex (fun s => bool_decide (section_id s = currentFlowSection)) allSections in
  if currentIndex <? Z.of_nat (length allSections) - 1 then
    match nth_error allSections (Z.to_nat (currentIndex + 1)) with
    | Some next => section_id next
    | None => currentFlowSection
    end
  else currentFlowSection.

Record Question := {
  agentIndex : nat;
  question : jsstring
}.

Definition QA_QUESTIONS : list Question :=
  [ {| agentIndex := 0; question := lit "Can you explain the difference between a 401(k) and an IRA? I'm confused about which one to choose." |};
    {| agentIndex := 1; question := lit "How much money do I actually need to start investing? I only have like $100 saved." |};
    {| agentIndex := 2; question := lit "What exactly are expense ratios and why should I care about them?" |};
    {| agentIndex := 3; question := lit "Should I pay off my student loans first or start investing now?" |};
    {| agentIndex := 0; question := lit "Is cryptocurrency a good investment for beginners like us?" |};
    {| agentIndex := 1; question := lit "How do I actually open a brokerage account? Can you walk us through the steps?" |};
    {| agentIndex := 2; question := lit "What happens if the stock market crashes right after I invest all my money?" |};
    {| agentIndex := 3; question := lit "Can you explain what dollar-cost averaging means in simple terms?" |};
    {| agentIndex := 0; question := lit "What's the difference between VTI, VXUS, and BND that you mentioned?" |};
    {| agentIndex := 1; question := lit "How often should I check my investment account once I start?" |};
    {| agentIndex := 2; question := lit "Is it better to invest a lump sum or spread it out over time?" |};
    {| agentIndex := 3; question := lit "What if I can only afford to invest $25 a month, is that even worth it?" |} ].

(** [askQuestion(index)] of the effect that starts the questions, run at
    time [now]: the message it appends, if any, and the index of the
    question it schedules next, if any.  [agents] and [sessionEnded] are
    the bindings of the render that started the questions. *)
Definition askQuestion (agents : list Agent) (sessionEnded : bool) (index : nat) (now : Z)
  : option Message * option nat :=
  match nth_error QA_QUESTIONS index with
  | None => (None, None)
  | Some qa =>
      if sessionEnded then (None, None) else
      match agents with
      | [] => (None, None)
      | first :: _ =>
          let agent := nth (agentIndex qa mod length agents) agents first in
          let questionMessage :=
            {| msg_id := lit "qa-" ++ showZ now ++ lit "-" ++ showZ (Z.of_nat index);
               agentId := agent_id agent;
               agentName := agent_name agent;
               content := question qa;
               timestamp := now;
               isUser := false |} in
          (Some questionMessage,
           if (S index <? length QA_QUESTIONS)%nat then Some (S index) else None)
      end
  end.

(** The messages of the chain of questions that starts at [index], when
    its timers fire at the times of [clock], one after the other. *)
Fixpoint askFrom (agents : list Agent) (index : nat) (clock : list Z) : list Message :=
  match clock with
  | [] => []
  | now :: later =>
      match askQuestion agents false index now with
      | (Some m, Some next) => m :: askFrom agents next later
      | (Some m, None) => [m]
      | (None, _) => []
      end
  end.

End Presentation.

(** ** A session of the interview page *)

Module InterviewSession.

Import Interview.

(** The interview page: the state of [Interview.State], the state
    variables [speechSupported] and [speechError], and [recognitionRef].
    The recognition object is represented by the render whose
    [handleUserSpeech] its [onresult] handler calls. *)
Record Page := {
  state : State;
  speechSupported : bool;
  speechError : option jsstring;
  recognitionRef : option State
}.

Definition setSessionActive (b : bool) (w : State) : State :=
  Build_State (messages w) (conversationHistory w) (isProcessing w) b
    (interimTranscript w) (isListening w) (ttsEnabled w) (lastTranscriptTimeRef w).

Definition setIsListening (b : bool) (w : State) : State :=
  Build_State (messages w) (conversationHistory w) (isProcessing w) (sessionActive w)
    (interimTranscript w) b (ttsEnabled w) (lastTranscriptTimeRef w).

Definition onState (f : State -> State) (p : Page) : Page :=
  {| state := f (state p); speechSupported := speechSupported p;
     speechError := speechError p; recognitionRef := recognitionRef p |}.

Definition setSpeechError (e : option jsstring) (p : Page) : Page :=
  {| state := state p; speechSupported := speechSupported p;
     speechError := e; recognitionRef := recognitionRef p |}.

Definition setRecognition (r : option State) (p : Page) : Page :=
  {| state := state p; speechSupported := speechSupported p;
     speechError := speechError p; recognitionRef := r |}.

Definition greetingText : jsstring :=
  lit "Hello! I'm here to help you practice for your interview. Let's start with an easy one: Tell me a bit about yourself and what brings you here today.".

(** [startSession], run by the render [env]; [startFails] says whether
    [recognition.start()] throws.  [speechSupported] is set by the mount
    effect exactly when the browser has a [SpeechRecognition] constructor,
    so past the first test [initializeSpeechRecognition] returns an
    object. *)
Definition startSession (env : Page) (now : Z) (startFails : bool) (p : Page) : Page :=
  if negb (speechSupported env) then
    setSpeechError (Some (lit "Speech recognition is not supported in your browser.")) p
  else
    let greeting :=
      {| id := lit "greeting"; role := assistant; content := greetingText;
         timestamp := now |} in
    let p1 := onState (setMessages (fun _ => [greeting])) p in
    let p2 :=
      onState (setConversationHistory [Build_ConversationMessage RoleModel greetingText])
        p1 in
    let p3 := onState (setSessionActive true) p2 in
    let p4 := setRecognition (Some (state env)) p3 in
    if startFails
    then setSpeechError
           (Some (lit "Failed to start speech recognition. Please try again.")) p4
    else p4.

Definition stopSession (p : Page) : Page :=
  let p1 := onState (setSessionActive false) p in
  let p2 := setRecognition None p1 in
  let p3 := onState (setIsListening false) p2 in
  onState (setInterimTranscript []) p3.

Definition resetSession (p : Page) : Page :=
  let p1 := stopSession p in
  let p2 := onState (setMessages (fun _ => [])) p1 in
  let p3 := onState (setConversationHistory []) p2 in
  let p4 := onState (setIsProcessing false) p3 in
  setSpeechError None p4.

(** What happens to a page whose session has been started. *)
Inductive Event :=
| Heard (event : SpeechEvent) (now nowSpeech : Z)   (* the recognition reports results *)
| Settled (outcome : FetchOutcome) (now : Z).       (* a call to the endpoint settles *)

Definition step (ev : Event) (p : Page) : Page * option Request :=
  match ev with
  | Heard event now nowSpeech =>
      match recognitionRef p with
      | Some env =>
          let '(s, request) := onresult env event now nowSpeech (state p) in
          (onState (fun _ => s) p, request)
      | None => (p, None)
      end
  | Settled outcome now => (onState (handleUserSpeech_settled outcome now) p, None)
  end.

(** The page after the events, and the requests sent on the way. *)
Fixpoint run (evs : list Event) (p : Page) : Page * list Request :=
  match evs with
  | [] => (p, [])
  | ev :: later =>
      let '(p1, request) := step ev p in
      let '(p2, requests) := run later p1 in
      (p2, match request with Some r => r :: requests | None => requests end)
  end.

End InterviewSession.

(** ** The session timer of the practice pages *)

Module Timer.

Import Practice Session.

(** A JavaScript number that is finite, as a rational. *)
Abbreviation number := QArith_base.Q.

Definition ofZ (z : Z) : number := QArith_base.inject_Z z.

Definition gt0 (x : number) : bool := negb (QArith_base.Qle_bool x (ofZ 0)).

Definition geq (x y : number) : bool := QArith_base.Qle_bool y x.

Section Interval.

Variable page : Page.
Variable scenario : option Scenario.
Variable calculateScore : nat -> Z -> DifficultyLevel -> Z.

(** [effectiveDuration] of a render; [customDurationSec] is [null] or the
    finite number, not below 0, that the loader of the custom
    configuration has stored. *)
Definition effectiveDuration (customDurationSec : option number) : number :=
  match customDurationSec with
  | Some secs => secs
  | None =>
      match scenario with
      | Some sc => ofZ (duration sc)
      | None => ofZ 0
      end
  end.

Definition handleEndSession (env : PageState) (now : Z) (w : World) : World :=
  match page with
  | RemoteInterviewerPage => RemoteInterviewer.handleEndSession scenario calculateScore env now w
  | PresentationPage => PresentationFlow.handleEndSession scenario calculateScore env now w
  end.

(** The callback of [setInterval]: [env] is the render whose effect set
    the interval and [limit] its [effectiveDuration]; the update of
    [timeElapsed] is functional, [handleEndSession] is the one of [env]. *)
Definition tick (env : PageState) (limit : number) (now : Z) (w : World) : World :=
  let prev := timeElapsed (st w) in
  let newTime := prev + 1 in
  let w1 :=
    if gt0 limit && geq (ofZ newTime) limit then handleEndSession env now w else w in
  setState (withTimeElapsed (fun _ => newTime)) w1.

(** One second passes.  The cleanup of the effect clears the interval as
    soon as a render sees [isActive] false or [sessionEnded] true. *)
Definition second (env : PageState) (limit : number) (now : Z) (w : World) : World :=
  if isActive (st w) && negb (sessionEnded (st w)) then tick env limit now w else w.

(** The seconds of [clock], one after the other. *)
Definition seconds (env : PageState) (limit : number) (clock : list Z) (w : World) : World :=
  fold_left (fun acc now => second env limit now acc) clock w.

End Interval.

End Timer.

(** ** The system prompt of the remote interviewer *)

Module SystemPrompt.

Import Practice.

Definition nl : jsstring := [10%N].

(** [Array.prototype.join] on strings. *)
Fixpoint join (separator : jsstring) (l : list jsstring) : jsstring :=
  match l with
  | [] => []
  | [x] => x
  | x :: r => x ++ separator ++ join separator r
  end.

(** The [switch] of [buildScenarioSystemPrompt]. *)
Definition scenarioSpecific (type : jsstring) : jsstring :=
  if bool_decide (type = lit "party") then
    lit "You are a friendly party guest. Ask casual questions to help the user practice social conversations. Be warm, engaging, and help them feel comfortable in social situations."
  else if bool_decide (type = lit "classroom") then
    lit "You are an engaged classroom participant or instructor. Ask thoughtful questions to encourage discussion and critical thinking. Help the user articulate their ideas clearly."
  else if bool_decide (type = lit "job-interview") then
    lit "You are a professional job interviewer. Ask relevant interview questions about experience, skills, and motivations. Be professional yet encouraging."
  else if bool_decide (type = lit "de-escalation") then
    lit "You are someone in a tense situation that needs de-escalation. Start with concern or frustration, but be receptive to calm, empathetic responses. Help the user practice conflict resolution."
  else if bool_decide (type = lit "presentation") then
    lit "You are an audience member attending a presentation. Ask clarifying questions about the content, request examples, and engage thoughtfully with the material."
  else
    lit "Engage with the user in a thoughtful, relevant way based on the conversation context.".

(** The part of [contextInfo] that quotes the uploaded document. *)
Definition documentPart (extractedDocumentText : jsstring) : jsstring :=
  if truthy extractedDocumentText then
    let docPreview := take 3000 extractedDocumentText in
    nl ++ nl ++ lit "Document content the user wants to discuss:" ++ nl ++ docPreview
    ++ (if bool_decide (3000 < length extractedDocumentText)%nat then lit "..." else [])
  else [].

Definition contextInfo (env : PageState) (extractedDocumentText : jsstring) : jsstring :=
  (if truthy (userExtrasForContext env)
   then nl ++ nl ++ lit "Additional context about the user: " ++ userExtrasForContext env
   else [])
  ++ (match talkingPointsForContext env with
      | [] => []
      | _ :: _ =>
          nl ++ nl ++ lit "Key topics to cover: "
          ++ join (lit ", ") (List.map fst (talkingPointsForContext env))
      end)
  ++ documentPart extractedDocumentText.

(** [buildScenarioSystemPrompt(scenario)] of the render [env], whose
    uploaded document reads [extractedDocumentText]. *)
Definition buildScenarioSystemPrompt (env : PageState) (extractedDocumentText : jsstring)
    (sc : Scenario) : jsstring :=
  lit "You are an intelligent, articulate interviewer helping the user practice for a "
  ++ scen_type sc ++ lit " scenario."
  ++ nl ++ nl ++ scenarioSpecific (scen_type sc) ++ contextInfo env extractedDocumentText
  ++ nl ++ nl ++ lit "Important guidelines:" ++ nl
  ++ lit "- Ask one question or make one statement at a time" ++ nl
  ++ lit "- Keep responses under 3 sentences" ++ nl
  ++ lit "- Listen actively and respond based on what the user says" ++ nl
  ++ lit "- Be encouraging and help the user practice their communication skills" ++ nl
  ++ lit "- Stay in character for the " ++ scen_type sc ++ lit " scenario".

End SystemPrompt.

(** ** Kinds of session events *)

Module Kinds.

Import Session.

(** The events of a session in which the user only types: no speech, no
    reply of the endpoint, no welcome, no other writer of [messages]. *)
Definition typedOnly (ev : Event) : bool :=
  match ev with
  | EvInput _ | EvSend _ _ _ | EvFire _ _ _ | EvEnd _ | EvDifficulty _ | EvTick => true
  | EvWelcome _ _ | EvMessages _ | EvSpeech _ _ _ | EvReply _ _ _ => false
  end.

Definition isEnd (ev : Event) : bool :=
  match ev with
  | EvEnd _ => true
  | _ => false
  end.

End Kinds.

(** ** More sample data *)

Module MoreSamples.

(** A page of the interview on which speech recognition is available and
    no session has run yet. *)
Definition fresh : InterviewSession.Page :=
  {| InterviewSession.state := Samples.idle;
     InterviewSession.speechSupported := true;
     InterviewSession.speechError := None;
     InterviewSession.recognitionRef := None |}.

(** A reply of the endpoint with the history it returns. *)
Definition answered (reply : string) : FetchOutcome :=
  HttpOk (OkBodyData (lit reply)
            [ Build_ConversationMessage RoleUser (lit "hello");
              Build_ConversationMessage RoleModel (lit reply) ]).

(** The presentation scenario. *)
Definition talk : Scenario :=
  {| scen_id := lit "presentation"; scen_type := lit "presentation";
     basePrompt := lit "Present."; presentational := None; duration := 300 |}.

Definition talkRun (evs : list Session.Event) (w : Practice.World) : Practice.World :=
  Session.run Session.PresentationPage (Some talk) Samples.cannedReply Samples.flatScore
    [Samples.host; Samples.guest] evs w.

End MoreSamples.

(** * Properties *)

Import Practice Session Samples.

(** ** Strings *)

Lemma trimStart_whitespaceOnly (s : jsstring) :
  whitespaceOnly s -> trimStart s = [].
Proof.
  unfold whitespaceOnly. induction s as [|c r IH]; simpl; [done|].
  intros [Hc Hr]%andb_prop. rewrite Hc. auto.
Qed.

Lemma trim_whitespaceOnly (s : jsstring) :
  whitespaceOnly s -> trim s = [].
Proof.
  intros H. unfold trim, trimEnd. by rewrite (trimStart_whitespaceOnly s H).
Qed.

Lemma trimStart_nil_whitespaceOnly (s : jsstring) :
  trimStart s = [] -> whitespaceOnly s.
Proof.
  unfold whitespaceOnly. induction s as [|c r IH]; simpl; [done|].
  destruct (isWhiteSpace c); [auto | discriminate].
Qed.

Lemma trim_nil_whitespaceOnly (s : jsstring) :
  trim s = [] -> whitespaceOnly s.
Proof.
  unfold trim, trimEnd. intros H.
  apply trimStart_nil_whitespaceOnly.
  destruct (trimStart s) as [|c r] eqn:E; [done|].
  assert (Hrev : trimStart (rev (c :: r)) = []).
  { apply (f_equal (@rev N)) in H. by rewrite rev_involutive in H. }
  apply trimStart_nil_whitespaceOnly in Hrev.
  unfold whitespaceOnly in Hrev. rewrite forallb_forall in Hrev.
  assert (Hc : isWhiteSpace c = true).
  { apply Hrev. rewrite <- in_rev. by left. }
  clear -E Hc. induction s as [|d s IH]; simpl in E; [done|].
  destruct (isWhiteSpace d) eqn:Ed; [auto|]. congruence.
Qed.

(** ** Properties of the conversation state *)

(** C4: for every state [s] the turn gate admits
    [updateStateOnUserMessage s], which awaits the agent turn and keeps the
    turn index of [s]. *)
Theorem user_message_opens_gate (s : ConversationState) :
  canGenerateAgentResponse (updateStateOnUserMessage s) = true
  /\ awaitingAgentTurn (updateStateOnUserMessage s) = true
  /\ turnIndex (updateStateOnUserMessage s) = turnIndex s.
Proof. by destruct s. Qed.

(** C5: for every state [s] and agent id [a] the turn gate rejects the
    state reached by a user message followed by an agent response; its turn
    index is [turnIndex s + 1] and it no longer awaits an agent turn. *)
Theorem agent_response_closes_gate (s : ConversationState) (a : jsstring) :
  canGenerateAgentResponse
    (advanceAfterAgentResponse (updateStateOnUserMessage s) a) = false
  /\ turnIndex (advanceAfterAgentResponse (updateStateOnUserMessage s) a)
     = turnIndex s + 1
  /\ awaitingAgentTurn (advanceAfterAgentResponse (updateStateOnUserMessage s) a)
     = false.
Proof. by destruct s. Qed.

(** ** The agent selector *)

Lemma leastRecent_is_Some (key : Agent -> nat) (l : list Agent) :
  l <> [] -> is_Some (leastRecent key l).
Proof.
  destruct l as [|a r]; [done|]. intros _. simpl.
  destruct (leastRecent key r) as [b|]; [|by eexists].
  destruct (key a <=? key b)%nat; by eexists.
Qed.

(** The agent [leastRecent] returns splits the list: strictly larger keys
    before it, keys at least as large after it. *)
Lemma leastRecent_first_minimum (key : Agent -> nat) (l : list Agent) (a : Agent) :
  leastRecent key l = Some a ->
  exists before after,
    l = before ++ a :: after
    /\ Forall (fun b => (key a < key b)%nat) before
    /\ Forall (fun b => (key a <= key b)%nat) after.
Proof.
  revert a. induction l as [|x r IH]; intros a; simpl; [done|].
  destruct (leastRecent key r) as [b|] eqn:E.
  - destruct (IH b eq_refl) as (before & after & -> & Hb & Ha).
    destruct (key x <=? key b)%nat eqn:Hle; intros [= <-].
    + apply Nat.leb_le in Hle.
      exists [], (before ++ b :: after). split; [done|]. split; [constructor|].
      apply Forall_app. split.
      * eapply Forall_impl; [exact Hb|]. intros c Hc. simpl in *. lia.
      * constructor; [lia|]. eapply Forall_impl; [exact Ha|]. intros c Hc. simpl in *. lia.
    + apply Nat.leb_gt in Hle.
      exists (x :: before), after. split; [done|]. split; [|done].
      constructor; [lia | done].
  - intros [= <-]. destruct r as [|y r'].
    2: { exfalso. destruct (leastRecent_is_Some key (y :: r')) as [z Hz]; [done|congruence]. }
    exists [], []. repeat split; constructor.
Qed.

Lemma selected_is_candidate (history : list Message) (agents : list Agent) (a : Agent) :
  In a (List.filter (fun b => negb (isLastSpeaker history b)) agents) ->
  lastNonUserSpeaker history <> Some (agent_id a).
Proof.
  intros [_ H]%filter_In. unfold isLastSpeaker in H.
  apply negb_true_iff, bool_decide_eq_false in H. exact H.
Qed.

(** The host spoke last, the critic never did: the critic is next. *)
Example select_never_heard :
  selectAgentToSpeak [fromHost "a"; fromGuest "b"; fromUser "c"; fromHost "d"] party
    [host; guest; critic] ActiveHost
  = Some critic.
Proof. reflexivity. Qed.

(** The critic spoke last; the guest was heard before the host. *)
Example select_least_recent :
  selectAgentToSpeak [fromGuest "a"; fromHost "b"; fromUser "c"; said critic "d"] party
    [host; guest; critic] ActiveHost
  = Some guest.
Proof. reflexivity. Qed.

(** Nobody has spoken: the first agent of the list. *)
Example select_first_on_tie :
  selectAgentToSpeak [fromUser "hello"] party [host; guest; critic] ActiveHost = Some host.
Proof. reflexivity. Qed.

(** C7: with no agents the selector returns null; with at least two agents
    and a non-empty history whose latest agent speaker is [who], under
    strategy "active-host" the selected agent is never [who], and among the
    agents other than [who] it is the least recently heard one, the first
    such in list order. *)
Theorem select_avoids_last_speaker
    (history : list Message) (sc : Scenario) (agents : list Agent) :
  (agents = [] -> forall strategy, selectAgentToSpeak history sc agents strategy = None)
  /\ (forall a who,
        history <> [] -> (2 <= length agents)%nat ->
        lastNonUserSpeaker history = Some who ->
        selectAgentToSpeak history sc agents ActiveHost = Some a ->
        agent_id a <> who
        /\ exists before after,
             List.filter (fun b => negb (isLastSpeaker history b)) agents
             = before ++ a :: after
             /\ Forall (fun b => (recency history a < recency history b)%nat) before
             /\ Forall (fun b => (recency history a <= recency history b)%nat) after).
Proof.
  split.
  - intros -> []. reflexivity.
  - intros a who _ Hlen Hlast Hsel.
    destruct agents as [|x [|y r]]; simpl in Hlen; [lia | lia |].
    unfold selectAgentToSpeak in Hsel.
    destruct (leastRecent_first_minimum _ _ _ Hsel) as (before & after & Hsplit & Hb & Ha).
    split; [|by exists before, after].
    intros <-. apply (selected_is_candidate history (x :: y :: r) a); [|done].
    rewrite Hsplit. apply in_or_app. right. by left.
Qed.

Lemma select_avoids_last_speaker_witness :
  agent_id guest <> lit "host".
Proof.
  apply (proj2 (select_avoids_last_speaker [fromHost "hi"; fromUser "hello"] party
                  [host; guest]) guest (lit "host")).
  - discriminate.
  - simpl. lia.
  - reflexivity.
  - reflexivity.
Defined.

(** With pairwise distinct agent ids the selector finds an agent whenever
    there is one. *)
Lemma select_total (history : list Message) (sc : Scenario) (agents : list Agent) :
  NoDup (List.map agent_id agents) -> agents <> [] ->
  is_Some (selectAgentToSpeak history sc agents ActiveHost).
Proof.
  intros Hnd Hne. destruct agents as [|x [|y r]]; [done | by eexists |].
  unfold selectAgentToSpeak. apply leastRecent_is_Some.
  simpl. unfold isLastSpeaker.
  destruct (bool_decide (lastNonUserSpeaker history = Some (agent_id x))) eqn:Ex; simpl;
    [|done].
  destruct (bool_decide (lastNonUserSpeaker history = Some (agent_id y))) eqn:Ey; simpl;
    [|done].
  apply bool_decide_eq_true in Ex, Ey.
  simpl in Hnd. apply NoDup_cons in Hnd as [Hx _].
  exfalso. apply Hx. apply elem_of_cons. left. congruence.
Qed.

(** ** Sending a typed message *)

(** C10: when the text box holds the empty string or only white space,
    [handleSendMessage] of either practice page returns the world it was
    given: no message, no change of the conversation state, no timer. *)
Theorem empty_send_is_noop
    (scenario : option Scenario) (env : PageState) (now delay : Z) (r : nat) (w : World) :
  whitespaceOnly (userInput env) ->
  RemoteInterviewer.handleSendMessage scenario env now delay w = w
  /\ PresentationFlow.handleSendMessage scenario env now delay r w = w.
Proof.
  intros H. unfold RemoteInterviewer.handleSendMessage, PresentationFlow.handleSendMessage.
  by rewrite (trim_whitespaceOnly _ H).
Qed.

Lemma empty_send_is_noop_witness :
  RemoteInterviewer.handleSendMessage (Some party)
    (withUserInput (lit "  ") (st mounted)) 1000 5000 mounted = mounted
  /\ PresentationFlow.handleSendMessage (Some party)
       (withUserInput (lit "  ") (st mounted)) 1000 5000 0 mounted = mounted.
Proof.
  apply (empty_send_is_noop (Some party) (withUserInput (lit "  ") (st mounted))
           1000 5000 0%nat mounted).
  reflexivity.
Defined.

(** A message that is not blank is appended as it was typed. *)
Lemma send_appends_user_message
    (scenario : option Scenario) (env : PageState) (now delay : Z) (w : World) :
  ~ whitespaceOnly (userInput env) ->
  messages (st (RemoteInterviewer.handleSendMessage scenario env now delay w))
  = messages (st w) ++ [userMessage (userInput env) now].
Proof.
  intros H. unfold RemoteInterviewer.handleSendMessage.
  destruct (trim (userInput env)) eqn:E.
  { exfalso. apply H. by apply trim_nil_whitespaceOnly. }
  simpl. unfold RemoteInterviewer.userTurn, scheduleAgentResponse.
  repeat (case_match; simpl; try done).
Qed.

(** ** Speech recognition *)

(** C9: a final transcript becomes a user message only if more than the
    debounce window separates it from the last processed one (1500 ms on
    the interview page, 2000 ms on the practice page); inside the window
    nothing is appended, nothing is sent to the endpoint, the
    conversation state, the timers and the time of the last processed
    transcript stay as they were. *)
Theorem speech_debounce (event : SpeechEvent) (now : Z) :
  (forall (env w : Interview.State) (nowSpeech : Z),
     (Interview.messages (Interview.onresult env event now nowSpeech w).1
        <> Interview.messages w ->
      1500 < now - Interview.lastTranscriptTimeRef w)
     /\ (now - Interview.lastTranscriptTimeRef w <= 1500 ->
         Interview.onresult env event now nowSpeech w
         = (Interview.setInterimTranscript (collectTranscripts event).1 w, None)))
  /\ (forall (scenario : option Scenario) (env : PageState) (delay : Z) (w : World),
        (messages (st (RemoteInterviewer.onresult scenario env event now delay w).1)
           <> messages (st w) ->
         2000 < now - lastTranscriptTimeRef w)
        /\ (now - lastTranscriptTimeRef w <= 2000 ->
            RemoteInterviewer.onresult scenario env event now delay w
            = (setState (withInterimTranscript (collectTranscripts event).1) w, None))).
Proof.
  split.
  - intros env w nowSpeech. unfold Interview.onresult.
    destruct (collectTranscripts event) as [interimText finalText]. simpl.
    destruct (truthy (trim finalText)); [|split; [done|done]].
    destruct (1500 <? now - Interview.lastTranscriptTimeRef w) eqn:E.
    + apply Z.ltb_lt in E. split; [done | lia].
    + split; [done|done].
  - intros scenario env delay w. unfold RemoteInterviewer.onresult.
    destruct (collectTranscripts event) as [interimText finalText]. simpl.
    destruct (truthy (trim finalText)); [|split; [done|done]].
    destruct (2000 <? now - lastTranscriptTimeRef w) eqn:E.
    + apply Z.ltb_lt in E. split; [done | lia].
    + split; [done|done].
Qed.

Lemma speech_debounce_witness :
  Interview.onresult idle (heard "hello") 1000 1001 idle
  = (Interview.setInterimTranscript [] idle, None)
  /\ RemoteInterviewer.onresult (Some party) (st mounted) (heard "hello") 1000 5000 mounted
     = (setState (withInterimTranscript []) mounted, None).
Proof.
  split.
  - apply (proj1 (speech_debounce (heard "hello") 1000) idle idle 1001). simpl. lia.
  - apply (proj2 (speech_debounce (heard "hello") 1000) (Some party) (st mounted) 5000 mounted).
    simpl. lia.
Defined.

(** Outside the window a final transcript with visible text is appended,
    trimmed, as a user message of the practice page. *)
Lemma speech_after_window_appends
    (scenario : option Scenario) (env : PageState) (event : SpeechEvent) (now delay : Z)
    (w : World) :
  truthy (trim (collectTranscripts event).2) = true ->
  2000 < now - lastTranscriptTimeRef w ->
  messages (st (RemoteInterviewer.onresult scenario env event now delay w).1)
  = messages (st w) ++ [userMessage (trim (collectTranscripts event).2) now].
Proof.
  intros Ht Hw. unfold RemoteInterviewer.onresult.
  destruct (collectTranscripts event) as [interimText finalText]. simpl in *.
  rewrite Ht. apply Z.ltb_lt in Hw. rewrite Hw.
  unfold RemoteInterviewer.handleGeminiInterviewerResponse, RemoteInterviewer.userTurn,
    scheduleAgentResponse.
  repeat (case_match; simpl in *; simplify_eq; try done).
Qed.

(** ** Failures of the conversational endpoint *)

(** C6: when the endpoint call fails (the request is rejected or the
    response is not ok) an error is thrown inside [try]; and whenever an
    error is thrown there, the handler of either page runs to its end and
    appends exactly one chat message, whose content is
    "Sorry, I encountered an error: " followed by the message of the
    error; the processing flag is back to false and nothing else changes.
    Over the whole handler, started on a page that is not processing, the
    interview page has gained the user message and the error message, the
    practice page the error message, and nothing else. *)
Theorem endpoint_failure_is_reported (outcome : FetchOutcome) :
  (isFailure outcome = true -> exists error, awaitReply outcome = inl error)
  /\ forall error,
       awaitReply outcome = inl error ->
       (forall (now : Z) (w : Interview.State),
          exists m,
            Interview.handleUserSpeech_settled outcome now w
            = Interview.setIsProcessing false
                (Interview.setMessages (fun prev => prev ++ [m]) w)
            /\ Interview.content m
               = lit "Sorry, I encountered an error: " ++ message error
                 ++ lit ". Please try again.")
       /\ (forall (env : PageState) (now : Z) (rnd : jsstring) (w : World),
             exists m,
               RemoteInterviewer.handleGeminiInterviewerResponse_settled env outcome now rnd w
               = setState (withIsGeminiProcessing false)
                   (setState (withMessages (fun prev => prev ++ [m])) w)
               /\ content m
                  = lit "Sorry, I encountered an error: " ++ message error
                    ++ lit ". Please try again.")
       /\ (forall (env w : Interview.State) (text : jsstring) (now now' : Z),
             truthy (trim text) = true -> Interview.isProcessing env = false ->
             Interview.isProcessing w = false ->
             exists u m,
               Interview.handleUserSpeech_settled outcome now'
                 (Interview.handleUserSpeech env text now w).1
               = Interview.setMessages (fun prev => prev ++ [u; m]) w
               /\ Interview.role u = Interview.user /\ Interview.content u = text
               /\ Interview.content m
                  = lit "Sorry, I encountered an error: " ++ message error
                    ++ lit ". Please try again.")
       /\ (forall (scenario : option Scenario) (env : PageState) (userText : jsstring)
                  (now : Z) (rnd : jsstring) (w : World),
             scenario <> None -> isGeminiProcessing env = false ->
             isGeminiProcessing (st w) = false ->
             exists m,
               RemoteInterviewer.handleGeminiInterviewerResponse_settled env outcome now rnd
                 (RemoteInterviewer.handleGeminiInterviewerResponse scenario env userText w).1
               = setState (withMessages (fun prev => prev ++ [m])) w
               /\ isUser m = false
               /\ content m
                  = lit "Sorry, I encountered an error: " ++ message error
                    ++ lit ". Please try again.").
Proof.
  split.
  { intros Hfail.
    destruct outcome as [e|[|e|[s|]]|body]; simpl in *; try discriminate; by eexists. }
  intros error Herr. split; [|split; [|split]].
  - intros now w. unfold Interview.handleUserSpeech_settled. rewrite Herr.
    eexists. split; [reflexivity|]. reflexivity.
  - intros env now rnd w.
    unfold RemoteInterviewer.handleGeminiInterviewerResponse_settled. rewrite Herr.
    eexists. split; [reflexivity|]. reflexivity.
  - intros env w text now now' Htext Henv Hw.
    unfold Interview.handleUserSpeech, Interview.handleUserSpeech_settled.
    rewrite Htext, Henv, Herr. simpl.
    exists {| Interview.id := lit "user-" ++ showZ now; Interview.role := Interview.user;
              Interview.content := text; Interview.timestamp := now |},
           {| Interview.id := lit "error-" ++ showZ now'; Interview.role := Interview.assistant;
              Interview.content := errorContent error; Interview.timestamp := now' |}.
    split; [|by repeat split].
    destruct w. simpl in *. subst. unfold Interview.setIsProcessing, Interview.setMessages.
    simpl. by rewrite <- app_assoc.
  - intros scenario env userText now rnd w Hsc Henv Hw.
    unfold RemoteInterviewer.handleGeminiInterviewerResponse,
      RemoteInterviewer.handleGeminiInterviewerResponse_settled.
    rewrite Henv, Herr. rewrite bool_decide_eq_false_2 by done. simpl.
    exists {| msg_id := lit "error-" ++ showZ now; agentId := lit "system";
              agentName := lit "System"; content := errorContent error;
              timestamp := now; isUser := false |}.
    split; [|by repeat split].
    destruct w as [s ? ? ? ? ? ? ?]. destruct s. simpl in *. by subst.
Qed.

Lemma endpoint_failure_is_reported_witness :
  exists m,
    RemoteInterviewer.handleGeminiInterviewerResponse_settled (st mounted)
      (HttpError (ErrorBodyValue (Some (lit "quota exceeded")))) 1200 (lit "0.5")
      (RemoteInterviewer.handleGeminiInterviewerResponse (Some party) (st mounted)
         (lit "hello") mounted).1
    = setState (withMessages (fun prev => prev ++ [m])) mounted
    /\ isUser m = false
    /\ content m = lit "Sorry, I encountered an error: quota exceeded. Please try again.".
Proof.
  destruct (endpoint_failure_is_reported
              (HttpError (ErrorBodyValue (Some (lit "quota exceeded")))))
    as [_ Hreport].
  destruct (Hreport (mkError (lit "quota exceeded")) eq_refl) as (_ & _ & _ & Hpage).
  apply (Hpage (Some party) (st mounted) (lit "hello") 1200 (lit "0.5") mounted).
  - discriminate.
  - reflexivity.
  - reflexivity.
Defined.

(** The whole of [handleUserSpeech] on a failing call, from a page that is
    not processing: the user message, then the error message. *)
Example interview_failure_session :
  let '(w1, _) := Interview.handleUserSpeech idle (lit "hello") 1000 idle in
  let w2 := Interview.handleUserSpeech_settled (NetworkError (mkError (lit "Failed to fetch")))
              1200 w1 in
  List.map Interview.content (Interview.messages w2)
  = [lit "hello"; lit "Sorry, I encountered an error: Failed to fetch. Please try again."]
  /\ Interview.isProcessing w2 = false
  /\ Interview.conversationHistory w2 = [].
Proof. vm_compute. done. Qed.

(** ** The response scheduler *)

(** The checks of the timer callback: it does something only if the
    session had not ended in the render that scheduled it, the gate admits
    the conversation state of that render, and the marker equals the turn
    index of that state. *)
Lemma agentResponseCallback_checks
    (generateAgentResponse :
       jsstring -> Agent -> DifficultyLevel -> list jsstring -> AgentPromptContext
       -> jsstring + JsError)
    (sc : Scenario) (env : PageState) (selected : Agent) (now : Z) (rnd : jsstring)
    (w : World) :
  agentResponseCallback generateAgentResponse sc env selected now rnd w <> Returned w ->
  sessionEnded env = false
  /\ canGenerateAgentResponse (convState env) = true
  /\ scheduledTurnRef w = Some (turnIndex (convState env)).
Proof.
  unfold agentResponseCallback. intros H.
  destruct (sessionEnded env); [done|].
  destruct (canGenerateAgentResponse (convState env)); [|done]. simpl in H.
  case_bool_decide; [done|]. by simpl in H.
Qed.

(** When the callback passes its checks and the generator returns, it
    appends one message of the selected agent, advances the live state
    and clears the marker. *)
Lemma agentResponseCallback_success
    (generateAgentResponse :
       jsstring -> Agent -> DifficultyLevel -> list jsstring -> AgentPromptContext
       -> jsstring + JsError)
    (sc : Scenario) (env : PageState) (selected : Agent) (now : Z) (rnd : jsstring)
    (w : World) :
  sessionEnded env = false ->
  canGenerateAgentResponse (convState env) = true ->
  scheduledTurnRef w = Some (turnIndex (convState env)) ->
  match agentResponseCallback generateAgentResponse sc env selected now rnd w with
  | Returned w' =>
      exists response,
        messages (st w') = messages (st w) ++ [agentMessage selected response now rnd]
        /\ convState (st w') = advanceAfterAgentResponse (convState (st w)) (agent_id selected)
        /\ scheduledTurnRef w' = None
  | Threw _ w' => w' = w
  end.
Proof.
  intros H1 H2 H3. unfold agentResponseCallback. rewrite H1, H2. simpl.
  rewrite bool_decide_eq_true_2 by done. simpl.
  destruct (generateAgentResponse _ _ _ _ _) as [response|e]; [|done].
  exists response. by simpl.
Qed.

Section Scheduling.

Variable scenario : option Scenario.

(** The three ways [scheduleAgentResponse] can end: nothing happens, the
    selector finds nobody and the marker is cleared, or one timer is set. *)
Lemma scheduleAgentResponse_cases
    (env : PageState) (snap : option ConversationState) (delay : Z) (w : World) :
  let snapshot := default (convState env) snap in
  ((scenario = None \/ agents env = [] \/ sessionEnded env = true
    \/ canGenerateAgentResponse snapshot = false
    \/ scheduledTurnRef w = Some (turnIndex snapshot))
   /\ scheduleAgentResponse scenario env snap delay w = w)
  \/ (exists sc,
        scenario = Some sc /\ agents env <> []
        /\ scheduledTurnRef w <> Some (turnIndex snapshot)
        /\ selectAgentToSpeak (messages env) sc (agents env) ActiveHost = None
        /\ scheduleAgentResponse scenario env snap delay w = setScheduledTurn None w)
  \/ (exists sc selected,
        scenario = Some sc /\ agents env <> [] /\ sessionEnded env = false
        /\ canGenerateAgentResponse snapshot = true
        /\ scheduledTurnRef w <> Some (turnIndex snapshot)
        /\ selectAgentToSpeak (messages env) sc (agents env) ActiveHost = Some selected
        /\ scheduleAgentResponse scenario env snap delay w
           = Build_World (st w) (Some (turnIndex snapshot))
               (agentResponseTimers w ++ [nextTimer w])
               (lastTranscriptTimeRef w) (qaTimerRef w)
               (<[nextTimer w := AgentResponseTimer sc env selected delay]> (timers w))
               (S (nextTimer w)) (practiceSessions w)).
Proof.
  intros snapshot. unfold scheduleAgentResponse. fold snapshot.
  destruct scenario as [sc|]; [|left; split; [by left|done]].
  case_bool_decide as Hlen; simpl.
  { left. split; [|done]. right. left. by destruct (agents env). }
  destruct (sessionEnded env) eqn:Hend; [left; split; [by right; right; left|done]|].
  destruct (canGenerateAgentResponse snapshot) eqn:Hgate; simpl;
    [|left; split; [by right; right; right; left|done]].
  case_bool_decide as Href; [left; split; [by right; right; right; right|done]|].
  assert (Hne : agents env <> []) by (by destruct (agents env)).
  destruct (selectAgentToSpeak (messages env) sc (agents env) ActiveHost) as [selected|] eqn:Hsel.
  - right. right. exists sc, selected. by repeat split.
  - right. left. exists sc. by repeat split.
Qed.

(** A second call for the turn the marker already names does nothing. *)
Lemma scheduleAgentResponse_marked
    (env : PageState) (snapshot : ConversationState) (delay : Z) (w : World) :
  scheduledTurnRef w = Some (turnIndex snapshot) ->
  scheduleAgentResponse scenario env (Some snapshot) delay w = w.
Proof.
  intros H. unfold scheduleAgentResponse. destruct scenario; [|done]. simpl.
  destruct (bool_decide (length (agents env) = 0%nat) || sessionEnded env); [done|].
  destruct (canGenerateAgentResponse snapshot); [|done]. simpl.
  by rewrite bool_decide_eq_true_2.
Qed.

End Scheduling.

(** ** Sessions *)

Lemma clearAll_world (l : list nat) (w : World) :
  fold_left (fun acc timer => clearTimeout timer acc) l w
  = Build_World (st w) (scheduledTurnRef w) (agentResponseTimers w)
      (lastTranscriptTimeRef w) (qaTimerRef w)
      (fold_left (fun m timer => delete timer m) l (timers w))
      (nextTimer w) (practiceSessions w).
Proof.
  revert w. induction l as [|t l IH]; intros w; simpl; [by destruct w|].
  by rewrite IH.
Qed.

Lemma lookup_clearAll_Some (l : list nat) (m : gmap nat TimerBody) (k : nat) (b : TimerBody) :
  fold_left (fun m timer => delete timer m) l m !! k = Some b ->
  m !! k = Some b /\ k ∉ l.
Proof.
  revert m. induction l as [|t l IH]; intros m; simpl.
  - intros H. split; [done|]. apply not_elem_of_nil.
  - intros H. apply IH in H as [H Hl].
    destruct (decide (t = k)) as [->|Hne].
    + by rewrite lookup_delete_eq in H.
    + rewrite lookup_delete_ne in H by done. split; [done|].
      intros [?|?]%elem_of_cons; [congruence|done].
Qed.

(** The speech handler of a render in which the remote interviewer is
    switched on, and the continuation of its endpoint call, leave the
    scheduler alone. *)
Lemma onresult_frame
    (scenario : option Scenario) (env : PageState) (event : SpeechEvent) (now delay : Z)
    (w : World) :
  useGeminiInterviewer env = true ->
  timers (RemoteInterviewer.onresult scenario env event now delay w).1 = timers w
  /\ agentResponseTimers (RemoteInterviewer.onresult scenario env event now delay w).1
     = agentResponseTimers w
  /\ scheduledTurnRef (RemoteInterviewer.onresult scenario env event now delay w).1
     = scheduledTurnRef w
  /\ agents (st (RemoteInterviewer.onresult scenario env event now delay w).1)
     = agents (st w)
  /\ convState (st (RemoteInterviewer.onresult scenario env event now delay w).1)
     = convState (st w)
  /\ sessionEnded (st (RemoteInterviewer.onresult scenario env event now delay w).1)
     = sessionEnded (st w).
Proof.
  intros Hremote. unfold RemoteInterviewer.onresult.
  destruct (collectTranscripts event) as [interimText finalText]. simpl.
  destruct (truthy (trim finalText)); [|done].
  destruct (2000 <? now - lastTranscriptTimeRef w); [|done].
  rewrite Hremote. unfold RemoteInterviewer.handleGeminiInterviewerResponse.
  by destruct (isGeminiProcessing env || bool_decide (scenario = None)).
Qed.

Lemma settled_frame
    (env : PageState) (outcome : FetchOutcome) (now : Z) (rnd : jsstring) (w : World) :
  timers (RemoteInterviewer.handleGeminiInterviewerResponse_settled env outcome now rnd w)
  = timers w
  /\ agentResponseTimers
       (RemoteInterviewer.handleGeminiInterviewerResponse_settled env outcome now rnd w)
     = agentResponseTimers w
  /\ scheduledTurnRef
       (RemoteInterviewer.handleGeminiInterviewerResponse_settled env outcome now rnd w)
     = scheduledTurnRef w
  /\ agents (st (RemoteInterviewer.handleGeminiInterviewerResponse_settled env outcome
                   now rnd w))
     = agents (st w)
  /\ convState (st (RemoteInterviewer.handleGeminiInterviewerResponse_settled env outcome
                      now rnd w))
     = convState (st w)
  /\ sessionEnded (st (RemoteInterviewer.handleGeminiInterviewerResponse_settled env
                         outcome now rnd w))
     = sessionEnded (st w).
Proof.
  unfold RemoteInterviewer.handleGeminiInterviewerResponse_settled.
  by destruct (awaitReply outcome) as [error|[assistantText history]].
Qed.

Section SessionInvariants.

Variable page : Page.
Variable scenario : option Scenario.
Variable generateAgentResponse :
  jsstring -> Agent -> DifficultyLevel -> list jsstring -> AgentPromptContext
  -> jsstring + JsError.
Variable calculateScore : nat -> Z -> DifficultyLevel -> Z.
Variable generatedAgents : list Agent.

Local Abbreviation step' := (step page scenario generateAgentResponse calculateScore generatedAgents).
Local Abbreviation run' := (run page scenario generateAgentResponse calculateScore generatedAgents).
Local Abbreviation reachable' :=
  (reachable page scenario generateAgentResponse calculateScore generatedAgents).
Local Abbreviation quiet' := (quiet scenario generatedAgents).

Lemma run_app (evs1 evs2 : list Event) (w : World) :
  run' (evs1 ++ evs2) w = run' evs2 (run' evs1 w).
Proof. unfold run. apply fold_left_app. Qed.

Lemma reachable_run (evs : list Event) (w : World) :
  reachable' w -> reachable' (run' evs w).
Proof.
  intros (mountTime & stored & evs0 & ->).
  exists mountTime, stored, (evs0 ++ evs). by rewrite run_app.
Qed.

(** *** The timers of the scheduler are tracked *)

Lemma tracked_same (w w' : World) :
  timers w' = timers w -> agentResponseTimers w' = agentResponseTimers w ->
  sessionEnded (st w') = sessionEnded (st w) ->
  tracked w -> tracked w'.
Proof.
  intros Ht Hl He H timer body. rewrite Ht, Hl, He. apply H.
Qed.

Lemma tracked_userTurn (env : PageState) (delay : Z) (w : World) :
  sessionEnded env = sessionEnded (st w) ->
  tracked w -> tracked (RemoteInterviewer.userTurn scenario env delay w).
Proof.
  intros He H. unfold RemoteInterviewer.userTurn.
  destruct (negb (bool_decide (length (agents env) = 0%nat)) && negb (sessionEnded env));
    [|by eapply tracked_same; [..|exact H]].
  destruct (scheduleAgentResponse_cases scenario env
              (Some (updateStateOnUserMessage (convState (st w)))) delay w)
    as [[_ ->] | [(sc & _ & _ & _ & _ & ->) | (sc & sel & _ & _ & Hend & _ & _ & _ & ->)]].
  - by eapply tracked_same; [..|exact H].
  - by eapply tracked_same; [..|exact H].
  - intros timer body. simpl. intros Hlook Hbody.
    destruct (decide (nextTimer w = timer)) as [<-|Hne].
    + split; [|congruence]. apply elem_of_app. right. by apply list_elem_of_singleton.
    + rewrite lookup_insert_ne in Hlook by done.
      destruct (H timer body Hlook Hbody) as [Hin Hs]. split; [|done].
      apply elem_of_app. by left.
Qed.

Lemma tracked_step (ev : Event) (w : World) :
  tracked w -> tracked (step' ev w).
Proof.
  intros H. destruct ev as [value|now delay r|timer now rnd|now|now rnd|ms|level|
                  |event now delay|outcome now rnd];
    simpl.
  - by eapply tracked_same; [..|exact H].
  - destruct page.
    + unfold RemoteInterviewer.handleSendMessage.
      destruct (negb (truthy (trim (userInput (st w))))); [done|].
      apply tracked_userTurn; [done|]. by eapply tracked_same; [..|exact H].
    + unfold PresentationFlow.handleSendMessage.
      destruct (negb (truthy (trim (userInput (st w))))); [done|].
      destruct (PresentationFlow.isPresentation scenario).
      * unfold PresentationFlow.generateHardcodedResponse.
        destruct (agents (st w)); [by eapply tracked_same; [..|exact H]|].
        destruct (sessionEnded (st w)) eqn:Hend; [by eapply tracked_same; [..|exact H]|].
        intros timer body. simpl. intros Hlook Hbody.
        destruct (decide (nextTimer w = timer)) as [<-|Hne].
        -- rewrite lookup_insert_eq in Hlook. by simplify_eq.
        -- rewrite lookup_insert_ne in Hlook by done.
           destruct (H timer body Hlook Hbody). by rewrite Hend in *.
      * apply tracked_userTurn; [done|]. by eapply tracked_same; [..|exact H].
  - unfold fireTimer. destruct (timers w !! timer) as [fired|] eqn:Hfired; [|done].
    assert (Hcleared : tracked (clearTimeout timer w)).
    { intros t body. simpl. intros Hlook Hbody.
      destruct (decide (timer = t)) as [->|Hne]; [by rewrite lookup_delete_eq in Hlook|].
      rewrite lookup_delete_ne in Hlook by done. exact (H t body Hlook Hbody). }
    destruct fired as [sc env selected delay|agent response].
    + unfold agentResponseCallback.
      repeat (case_match; simpl; try done);
        by eapply tracked_same; [..|exact Hcleared].
    + by eapply tracked_same; [..|exact Hcleared].
  - assert (Hgone : forall timer body,
               fold_left (fun m t => delete t m) (agentResponseTimers w) (timers w) !! timer
               = Some body ->
               isAgentResponseTimer body = true -> False).
    { intros timer body [Hlook Hnot]%lookup_clearAll_Some Hbody.
      by destruct (H timer body Hlook Hbody). }
    destruct page.
    + unfold RemoteInterviewer.handleEndSession. rewrite clearAll_world.
      intros timer body. simpl. intros Hlook Hbody. by destruct (Hgone timer body).
    + unfold PresentationFlow.handleEndSession. rewrite clearAll_world.
      intros timer body. simpl. destruct (qaTimerRef w) as [qa|]; simpl.
      * intros Hlook Hbody. exfalso.
        destruct (decide (qa = timer)) as [->|Hne]; [by rewrite lookup_delete_eq in Hlook|].
        rewrite lookup_delete_ne in Hlook by done. by destruct (Hgone timer body).
      * intros Hlook Hbody. by destruct (Hgone timer body).
  - unfold welcomeCallback. destruct generatedAgents; [done|].
    by eapply tracked_same; [..|exact H].
  - by eapply tracked_same; [..|exact H].
  - by eapply tracked_same; [..|exact H].
  - by eapply tracked_same; [..|exact H].
  - destruct page; [|done].
    destruct (onresult_frame scenario (initialState generatedAgents) event now delay w)
      as (? & ? & _ & _ & _ & ?); [done|].
    by eapply tracked_same; [..|exact H].
  - destruct page; [|done].
    destruct (settled_frame (initialState generatedAgents) outcome now rnd w)
      as (? & ? & _ & _ & _ & ?).
    by eapply tracked_same; [..|exact H].
Qed.

Lemma tracked_initial (mountTime : Z) (stored : list SessionSummary) :
  tracked (initialWorld generatedAgents mountTime stored).
Proof. intros timer body. simpl. by rewrite lookup_empty. Qed.

Lemma tracked_run (evs : list Event) (w : World) :
  tracked w -> tracked (run' evs w).
Proof.
  revert w. induction evs as [|ev evs IH]; intros w H; [done|].
  simpl. apply IH. by apply tracked_step.
Qed.

Lemma reachable_tracked (w : World) : reachable' w -> tracked w.
Proof.
  intros (mountTime & stored & evs & ->). apply tracked_run, tracked_initial.
Qed.

(** *** A session that has ended stays ended *)

Lemma userTurn_sessionEnded (env : PageState) (delay : Z) (w : World) :
  sessionEnded (st (RemoteInterviewer.userTurn scenario env delay w)) = sessionEnded (st w).
Proof.
  unfold RemoteInterviewer.userTurn.
  destruct (negb (bool_decide (length (agents env) = 0%nat)) && negb (sessionEnded env));
    [|done].
  by destruct (scheduleAgentResponse_cases scenario env
              (Some (updateStateOnUserMessage (convState (st w)))) delay w)
    as [[_ ->] | [(sc & _ & _ & _ & _ & ->) | (sc & sel & _ & _ & _ & _ & _ & _ & ->)]].
Qed.

Lemma ended_step (ev : Event) (w : World) :
  sessionEnded (st w) = true -> sessionEnded (st (step' ev w)) = true.
Proof.
  intros H. destruct ev as [value|now delay r|timer now rnd|now|now rnd|ms|level|
                  |event now delay|outcome now rnd];
    simpl; try done.
  - destruct page.
    + unfold RemoteInterviewer.handleSendMessage.
      destruct (negb (truthy (trim (userInput (st w))))); [done|].
      by rewrite userTurn_sessionEnded.
    + unfold PresentationFlow.handleSendMessage.
      destruct (negb (truthy (trim (userInput (st w))))); [done|].
      destruct (PresentationFlow.isPresentation scenario).
      * unfold PresentationFlow.generateHardcodedResponse.
        destruct (agents (st w)); [done|]. by rewrite H.
      * by rewrite userTurn_sessionEnded.
  - unfold fireTimer. destruct (timers w !! timer) as [[sc env selected delay|agent response]|];
      [|done|done].
    unfold agentResponseCallback. repeat (case_match; simpl; try done).
  - destruct page.
    + unfold RemoteInterviewer.handleEndSession. by rewrite clearAll_world.
    + unfold PresentationFlow.handleEndSession. rewrite clearAll_world. simpl.
      by destruct (qaTimerRef w).
  - unfold welcomeCallback. by destruct generatedAgents.
  - destruct page; [|done].
    destruct (onresult_frame scenario (initialState generatedAgents) event now delay w)
      as (_ & _ & _ & _ & _ & ->); done.
  - destruct page; [|done].
    destruct (settled_frame (initialState generatedAgents) outcome now rnd w)
      as (_ & _ & _ & _ & _ & ->); done.
Qed.

Lemma ended_run (evs : list Event) (w : World) :
  sessionEnded (st w) = true -> sessionEnded (st (run' evs w)) = true.
Proof.
  revert w. induction evs as [|ev evs IH]; intros w H; [done|].
  simpl. apply IH. by apply ended_step.
Qed.

Lemma end_sets_sessionEnded (now : Z) (w : World) :
  sessionEnded (st (step' (EvEnd now) w)) = true.
Proof.
  simpl. destruct page.
  - unfold RemoteInterviewer.handleEndSession. by rewrite clearAll_world.
  - unfold PresentationFlow.handleEndSession. rewrite clearAll_world. simpl.
    by destruct (qaTimerRef w).
Qed.

Lemma end_empties_agentResponseTimers (now : Z) (w : World) :
  agentResponseTimers (step' (EvEnd now) w) = [].
Proof.
  simpl. destruct page.
  - unfold RemoteInterviewer.handleEndSession. by rewrite clearAll_world.
  - unfold PresentationFlow.handleEndSession. rewrite clearAll_world. simpl.
    by destruct (qaTimerRef w).
Qed.

(** Once the session has ended no timer of the scheduler is pending. *)
Lemma tracked_ended (w : World) :
  tracked w -> sessionEnded (st w) = true ->
  forall timer body, timers w !! timer = Some body -> isAgentResponseTimer body = false.
Proof.
  intros H Hend timer body Hlook.
  destruct (isAgentResponseTimer body) eqn:Hbody; [|done].
  destruct (H timer body Hlook Hbody). congruence.
Qed.

(** *** One schedule per turn *)

Lemma agentResponseCallback_cases
    (sc : Scenario) (env : PageState) (selected : Agent) (now : Z) (rnd : jsstring)
    (v : World) :
  worldOf (agentResponseCallback generateAgentResponse sc env selected now rnd v) = v
  \/ exists response,
       worldOf (agentResponseCallback generateAgentResponse sc env selected now rnd v)
       = setScheduledTurn None
           (setState (withConvState
                        (fun prev => advanceAfterAgentResponse prev (agent_id selected)))
              (addAgentMessage selected response now rnd v)).
Proof.
  unfold agentResponseCallback.
  destruct (sessionEnded env); [by left|].
  destruct (negb (canGenerateAgentResponse (convState env))); [by left|].
  destruct (negb (bool_decide (scheduledTurnRef v = Some (turnIndex (convState env)))));
    [by left|].
  destruct (generateAgentResponse _ _ _ _ _) as [response|e]; [|by left].
  right. by exists response.
Qed.

Lemma scheduledOnce_keep (w w' : World) :
  scheduledOnce w ->
  (forall timer sc env selected delay,
     timers w' !! timer = Some (AgentResponseTimer sc env selected delay) ->
     timers w !! timer = Some (AgentResponseTimer sc env selected delay)) ->
  (turnIndex (convState (st w')) = turnIndex (convState (st w))
   /\ scheduledTurnRef w' = scheduledTurnRef w)
  \/ turnIndex (convState (st w)) < turnIndex (convState (st w')) ->
  scheduledOnce w'.
Proof.
  intros [Hage Hone] Hsub Hturn. split.
  - intros timer sc env selected delay Hlook.
    destruct (Hage timer sc env selected delay (Hsub _ _ _ _ _ Hlook)) as [Hle Hmark].
    destruct Hturn as [[Heq Href]|Hlt].
    + rewrite Heq, Href. by split.
    + split; lia.
  - intros timer1 timer2 sc1 env1 selected1 delay1 sc2 env2 selected2 delay2 H1 H2.
    eapply Hone; by apply Hsub.
Qed.

Lemma scheduledOnce_userTurn (env : PageState) (delay : Z) (w : World) :
  convState env = convState (st w) ->
  scheduledOnce w -> scheduledOnce (RemoteInterviewer.userTurn scenario env delay w).
Proof.
  intros Hconv Hs. pose proof Hs as [Hage Hone]. unfold RemoteInterviewer.userTurn.
  set (next := updateStateOnUserMessage (convState (st w))).
  destruct (negb (bool_decide (length (agents env) = 0%nat)) && negb (sessionEnded env)).
  2: { apply (scheduledOnce_keep w); auto. }
  destruct (scheduleAgentResponse_cases scenario env (Some next) delay w)
    as [[_ ->] | [(sc & _ & _ & Href & _ & ->)
                 | (sc & sel & _ & _ & _ & _ & Href & _ & ->)]]; try (simpl in Href).
  - apply (scheduledOnce_keep w); auto.
  - split; simpl.
    + intros timer sc' env' selected delay' Hlook.
      destruct (Hage _ _ _ _ _ Hlook) as [Hle Hmark]. split; [done|].
      intros Heq. by destruct Href; apply Hmark.
    + exact Hone.
  - split; simpl.
    + intros timer sc' env' selected delay' Hlook. split; [|done].
      destruct (decide (nextTimer w = timer)) as [<-|Hneq].
      * rewrite lookup_insert_eq in Hlook. simplify_eq. by rewrite Hconv.
      * rewrite lookup_insert_ne in Hlook by done. by destruct (Hage _ _ _ _ _ Hlook).
    + intros timer1 timer2 sc1 env1 selected1 delay1 sc2 env2 selected2 delay2 H1 H2 Heq.
      destruct (decide (nextTimer w = timer1)) as [<-|Hneq1];
        destruct (decide (nextTimer w = timer2)) as [<-|Hneq2]; [done|..].
      * rewrite lookup_insert_eq in H1. rewrite lookup_insert_ne in H2 by done.
        simplify_eq. destruct (Hage _ _ _ _ _ H2) as [_ Hmark].
        destruct Href. apply Hmark. by rewrite <- Heq, Hconv.
      * rewrite lookup_insert_eq in H2. rewrite lookup_insert_ne in H1 by done.
        simplify_eq. destruct (Hage _ _ _ _ _ H1) as [_ Hmark].
        destruct Href. apply Hmark. by rewrite Heq, Hconv.
      * rewrite lookup_insert_ne in H1, H2 by done. by eapply Hone.
Qed.

Lemma scheduledOnce_step (ev : Event) (w : World) :
  scheduledOnce w -> scheduledOnce (step' ev w).
Proof.
  intros Hs.
  destruct ev as [value|now delay r|timer now rnd|now|now rnd|ms|level|
                  |event now delay|outcome now rnd];
    simpl.
  - apply (scheduledOnce_keep w); auto.
  - destruct page.
    + unfold RemoteInterviewer.handleSendMessage.
      destruct (negb (truthy (trim (userInput (st w))))); [done|].
      by apply scheduledOnce_userTurn.
    + unfold PresentationFlow.handleSendMessage.
      destruct (negb (truthy (trim (userInput (st w))))); [done|].
      destruct (PresentationFlow.isPresentation scenario).
      * unfold PresentationFlow.generateHardcodedResponse.
        destruct (agents (st w)); [apply (scheduledOnce_keep w); auto|].
        destruct (sessionEnded (st w)); [apply (scheduledOnce_keep w); auto|].
        apply (scheduledOnce_keep w); simpl; auto.
        intros timer sc env selected d Hlook.
        destruct (decide (nextTimer w = timer)) as [<-|Hneq].
        -- by rewrite lookup_insert_eq in Hlook.
        -- by rewrite lookup_insert_ne in Hlook.
      * by apply scheduledOnce_userTurn.
  - unfold fireTimer. destruct (timers w !! timer) as [fired|] eqn:Hfired; [|done].
    assert (Hsub : forall t sc env selected d,
               timers (clearTimeout timer w) !! t = Some (AgentResponseTimer sc env selected d) ->
               timers w !! t = Some (AgentResponseTimer sc env selected d)).
    { intros t sc env selected d. simpl. intros Hlook.
      destruct (decide (timer = t)) as [->|Hneq]; [by rewrite lookup_delete_eq in Hlook|].
      by rewrite lookup_delete_ne in Hlook. }
    destruct fired as [sc env selected delay|agent response].
    + destruct (agentResponseCallback_cases sc env selected now rnd (clearTimeout timer w))
        as [-> | [response ->]].
      * apply (scheduledOnce_keep w); auto.
      * apply (scheduledOnce_keep w); auto. right. simpl. lia.
    + apply (scheduledOnce_keep w); auto.
  - assert (Hsub : forall timer body,
               fold_left (fun m t => delete t m) (agentResponseTimers w) (timers w) !! timer
               = Some body -> timers w !! timer = Some body).
    { intros timer body Hlook. by apply lookup_clearAll_Some in Hlook as [? _]. }
    destruct page.
    + unfold RemoteInterviewer.handleEndSession. rewrite clearAll_world.
      apply (scheduledOnce_keep w); simpl; auto.
    + unfold PresentationFlow.handleEndSession. rewrite clearAll_world.
      apply (scheduledOnce_keep w); simpl.
      * done.
      * intros timer sc env selected d. destruct (qaTimerRef w) as [qa|]; simpl; [|by auto].
        intros Hlook. apply Hsub.
        destruct (decide (qa = timer)) as [->|Hneq]; [by rewrite lookup_delete_eq in Hlook|].
        by rewrite lookup_delete_ne in Hlook.
      * left. by destruct (qaTimerRef w).
  - assert (Hany : forall greeters, scheduledOnce (welcomeCallback greeters now rnd w)).
    { intros [|first rest]; [done|]. apply (scheduledOnce_keep w); auto.
      right. simpl. lia. }
    apply Hany.
  - apply (scheduledOnce_keep w); auto.
  - apply (scheduledOnce_keep w); auto.
  - apply (scheduledOnce_keep w); auto.
  - destruct page; [|done].
    destruct (onresult_frame scenario (initialState generatedAgents) event now delay w)
      as (Ht' & _ & ? & _ & Hc & _); [done|].
    apply (scheduledOnce_keep w); auto.
    + intros timer sc env selected d. by rewrite Ht'.
    + left. by rewrite Hc.
  - destruct page; [|done].
    destruct (settled_frame (initialState generatedAgents) outcome now rnd w)
      as (Ht' & _ & ? & _ & Hc & _).
    apply (scheduledOnce_keep w); auto.
    + intros timer sc env selected d. by rewrite Ht'.
    + left. by rewrite Hc.
Qed.

Lemma scheduledOnce_run (evs : list Event) (w : World) :
  scheduledOnce w -> scheduledOnce (run' evs w).
Proof.
  revert w. induction evs as [|ev evs IH]; intros w H; [done|].
  simpl. apply IH. by apply scheduledOnce_step.
Qed.

(** At most one schedule is outstanding per turn index. *)
Lemma one_schedule_per_turn
    (w : World) (timer1 timer2 : nat) (sc1 sc2 : Scenario) (env1 env2 : PageState)
    (selected1 selected2 : Agent) (delay1 delay2 : Z) :
  reachable' w ->
  timers w !! timer1 = Some (AgentResponseTimer sc1 env1 selected1 delay1) ->
  timers w !! timer2 = Some (AgentResponseTimer sc2 env2 selected2 delay2) ->
  turnIndex (convState env1) = turnIndex (convState env2) ->
  timer1 = timer2.
Proof.
  intros (mountTime & stored & evs & ->).
  assert (Hs : scheduledOnce (run' evs (initialWorld generatedAgents mountTime stored))).
  { apply scheduledOnce_run. split.
    - intros timer sc env selected delay. simpl. by rewrite lookup_empty.
    - intros timer1' timer2' ? ? ? ? ? ? ? ?. simpl. by rewrite lookup_empty. }
  destruct Hs as [_ Hone]. apply Hone.
Qed.

(** *** No pending callback can pass the gate *)

Hypothesis distinct_ids : NoDup (List.map agent_id generatedAgents).

Lemma quiet_keep (w w' : World) :
  quiet' w ->
  agents (st w') = agents (st w) ->
  (forall timer sc env selected delay,
     timers w' !! timer = Some (AgentResponseTimer sc env selected delay) ->
     timers w !! timer = Some (AgentResponseTimer sc env selected delay)) ->
  (awaitingAgentTurn (convState (st w')) = false
   \/ sessionEnded (st w') = true
   \/ (convState (st w') = convState (st w)
       /\ sessionEnded (st w') = sessionEnded (st w)
       /\ scheduledTurnRef w' = scheduledTurnRef w)) ->
  quiet' w'.
Proof.
  intros (Ha & Ht & Hm) Hag Hsub Hcases. split; [congruence|]. split.
  - intros timer sc env selected delay Hlook. eapply Ht. by apply Hsub.
  - intros Haw Hend Hne Hsc.
    destruct Hcases as [?|[?|(Hc & Hs & Hr)]]; [congruence|congruence|].
    rewrite Hc, Hr in *. apply Hm; congruence.
Qed.

Lemma quiet_userTurn (env : PageState) (delay : Z) (w : World) :
  agents env = generatedAgents ->
  convState env = convState (st w) ->
  sessionEnded env = sessionEnded (st w) ->
  quiet' w -> quiet' (RemoteInterviewer.userTurn scenario env delay w).
Proof.
  intros Hag Hconv Hend Hq. pose proof Hq as (Ha & Ht & Hm).
  unfold RemoteInterviewer.userTurn.
  set (next := updateStateOnUserMessage (convState (st w))).
  destruct (negb (bool_decide (length (agents env) = 0%nat)) && negb (sessionEnded env))
    eqn:Hguard.
  - apply andb_prop in Hguard as [Hlen Hlive].
    apply negb_true_iff in Hlive. apply negb_true_iff, bool_decide_eq_false in Hlen.
    destruct (scheduleAgentResponse_cases scenario env (Some next) delay w)
      as [[Hwhy ->] | [(sc & Hsc & Hne & _ & Hnone & ->)
                      | (sc & sel & Hsc & Hne & _ & _ & Href & Hsel & ->)]].
    + split; [done|]. split; [done|]. simpl. intros _ Hlive' Hgen Hscen.
      destruct Hwhy as [?|[Hnil|[?|[?|Hmark]]]];
        [done | by rewrite Hnil in Hlen | congruence | done | done].
    + destruct (select_total (messages env) sc (agents env)) as [a Hsome];
        [by rewrite Hag | done | congruence].
    + split; [done|]. split; [|done]. simpl.
      intros timer sc' env' selected delay' Hlook.
      destruct (decide (nextTimer w = timer)) as [<-|Hneq].
      * rewrite lookup_insert_eq in Hlook. simplify_eq.
        destruct (awaitingAgentTurn (convState env')) eqn:Haw; [|done].
        exfalso. apply Href. simpl. rewrite Hconv in Haw.
        apply Hm; [done | congruence | congruence | congruence].
      * rewrite lookup_insert_ne in Hlook by done. by eapply Ht.
  - split; [done|]. split; [done|]. simpl. intros _ Hlive Hgen _.
    apply andb_false_iff in Hguard as [Hlen|Hlive'].
    + apply negb_false_iff, bool_decide_eq_true in Hlen.
      rewrite Hag in Hlen. by destruct generatedAgents.
    + apply negb_false_iff in Hlive'. congruence.
Qed.

Lemma quiet_step (ev : Event) (w : World) :
  quiet' w -> quiet' (step' ev w).
Proof.
  intros Hq. pose proof Hq as (Ha & Ht & Hm).
  destruct ev as [value|now delay r|timer now rnd|now|now rnd|ms|level|
                  |event now delay|outcome now rnd];
    simpl.
  - apply (quiet_keep w); auto.
  - destruct page.
    + unfold RemoteInterviewer.handleSendMessage.
      destruct (negb (truthy (trim (userInput (st w))))); [done|].
      by apply quiet_userTurn.
    + unfold PresentationFlow.handleSendMessage.
      destruct (negb (truthy (trim (userInput (st w))))); [done|].
      destruct (PresentationFlow.isPresentation scenario).
      * unfold PresentationFlow.generateHardcodedResponse.
        destruct (agents (st w)) eqn:Hag; [apply (quiet_keep w); auto|].
        destruct (sessionEnded (st w)) eqn:Hend; [apply (quiet_keep w); auto|].
        apply (quiet_keep w); simpl; auto.
        intros timer sc env selected d Hlook.
        destruct (decide (nextTimer w = timer)) as [<-|Hneq].
        -- by rewrite lookup_insert_eq in Hlook.
        -- by rewrite lookup_insert_ne in Hlook.
      * by apply quiet_userTurn.
  - unfold fireTimer. destruct (timers w !! timer) as [fired|] eqn:Hfired; [|done].
    assert (Hcleared : quiet' (clearTimeout timer w)).
    { apply (quiet_keep w); simpl; auto.
      intros t sc env selected d Hlook.
      destruct (decide (timer = t)) as [->|Hneq]; [by rewrite lookup_delete_eq in Hlook|].
      by rewrite lookup_delete_ne in Hlook. }
    destruct fired as [sc env selected delay|agent response].
    + unfold agentResponseCallback.
      destruct (sessionEnded env); [done|].
      unfold canGenerateAgentResponse. by rewrite (Ht timer sc env selected delay Hfired).
    + apply (quiet_keep (clearTimeout timer w)); auto.
  - assert (Hsub : forall timer body,
               fold_left (fun m t => delete t m) (agentResponseTimers w) (timers w) !! timer
               = Some body -> timers w !! timer = Some body).
    { intros timer body Hlook. by apply lookup_clearAll_Some in Hlook as [? _]. }
    destruct page.
    + unfold RemoteInterviewer.handleEndSession. rewrite clearAll_world.
      apply (quiet_keep w); simpl; auto.
    + unfold PresentationFlow.handleEndSession. rewrite clearAll_world.
      apply (quiet_keep w); simpl.
      * done.
      * by destruct (qaTimerRef w).
      * intros timer sc env selected d. destruct (qaTimerRef w) as [qa|]; simpl; [|by auto].
        intros Hlook. apply Hsub.
        destruct (decide (qa = timer)) as [->|Hneq]; [by rewrite lookup_delete_eq in Hlook|].
        by rewrite lookup_delete_ne in Hlook.
      * right. left. by destruct (qaTimerRef w).
  - assert (Hany : forall greeters, quiet' (welcomeCallback greeters now rnd w)).
    { intros [|first rest]; [done|]. apply (quiet_keep w); simpl; auto. }
    apply Hany.
  - apply (quiet_keep w); auto.
  - apply (quiet_keep w); auto.
  - apply (quiet_keep w); auto.
  - destruct page; [|done].
    destruct (onresult_frame scenario (initialState generatedAgents) event now delay w)
      as (Ht' & _ & ? & ? & ? & ?); [done|].
    apply (quiet_keep w); auto. intros timer sc env selected d. by rewrite Ht'.
  - destruct page; [|done].
    destruct (settled_frame (initialState generatedAgents) outcome now rnd w)
      as (Ht' & _ & ? & ? & ? & ?).
    apply (quiet_keep w); auto. intros timer sc env selected d. by rewrite Ht'.
Qed.

Lemma quiet_initial (mountTime : Z) (stored : list SessionSummary) :
  quiet' (initialWorld generatedAgents mountTime stored).
Proof.
  split; [done|]. split; [|done].
  intros timer sc env selected delay. simpl. by rewrite lookup_empty.
Qed.

Lemma quiet_run (evs : list Event) (w : World) :
  quiet' w -> quiet' (run' evs w).
Proof.
  revert w. induction evs as [|ev evs IH]; intros w H; [done|].
  simpl. apply IH. by apply quiet_step.
Qed.

Lemma reachable_quiet (w : World) : reachable' w -> quiet' w.
Proof.
  intros (mountTime & stored & evs & ->). apply quiet_run, quiet_initial.
Qed.

(** In a reachable world the callback of a pending timer of the scheduler
    returns at its gate check. *)
Lemma pending_callback_returns
    (w v : World) (timer : nat) (sc : Scenario) (env : PageState) (selected : Agent)
    (delay now : Z) (rnd : jsstring) :
  reachable' w ->
  timers w !! timer = Some (AgentResponseTimer sc env selected delay) ->
  agentResponseCallback generateAgentResponse sc env selected now rnd v = Returned v.
Proof.
  intros Hr Hlook. destruct (reachable_quiet w Hr) as (_ & Ht & _).
  unfold agentResponseCallback. destruct (sessionEnded env); [done|].
  unfold canGenerateAgentResponse. by rewrite (Ht timer sc env selected delay Hlook).
Qed.

End SessionInvariants.

(** ** Stale timers *)

(** C1: in every world a session can reach, if the live turn index differs
    from the one a pending timer of the scheduler was created for, running
    the callback of that timer returns normally and leaves the world as it
    found it: no message is appended, the conversation state and the
    marker are untouched.  (Agents are told apart by their ids.) *)
Theorem stale_timer_appends_nothing
    (page : Page) (scenario : option Scenario)
    (generateAgentResponse :
       jsstring -> Agent -> DifficultyLevel -> list jsstring -> AgentPromptContext
       -> jsstring + JsError)
    (calculateScore : nat -> Z -> DifficultyLevel -> Z)
    (generatedAgents : list Agent)
    (w : World) (timer : nat) (sc : Scenario) (env : PageState) (selected : Agent)
    (delay now : Z) (rnd : jsstring) :
  NoDup (List.map agent_id generatedAgents) ->
  reachable page scenario generateAgentResponse calculateScore generatedAgents w ->
  timers w !! timer = Some (AgentResponseTimer sc env selected delay) ->
  turnIndex (convState (st w)) <> turnIndex (convState env) ->
  agentResponseCallback generateAgentResponse sc env selected now rnd (clearTimeout timer w)
  = Returned (clearTimeout timer w)
  /\ step page scenario generateAgentResponse calculateScore generatedAgents
       (EvFire timer now rnd) w
     = clearTimeout timer w
  /\ messages (st (step page scenario generateAgentResponse calculateScore generatedAgents
                     (EvFire timer now rnd) w))
     = messages (st w).
Proof.
  intros Hdistinct Hreach Hlook _.
  assert (Hret : agentResponseCallback generateAgentResponse sc env selected now rnd
                   (clearTimeout timer w) = Returned (clearTimeout timer w)).
  { by eapply pending_callback_returns. }
  assert (Hfire : step page scenario generateAgentResponse calculateScore generatedAgents
                    (EvFire timer now rnd) w = clearTimeout timer w).
  { simpl. unfold fireTimer. by rewrite Hlook, Hret. }
  split; [done|]. split; [done|]. by rewrite Hfire.
Qed.

Lemma stale_timer_appends_nothing_witness :
  step RemoteInterviewerPage (Some party) cannedReply flatScore [host; guest]
    (EvFire 1 7000 (lit "0.5")) greeted
  = clearTimeout 1 greeted.
Proof.
  apply (stale_timer_appends_nothing RemoteInterviewerPage (Some party) cannedReply flatScore
           [host; guest] greeted 1%nat party (st typed) host 5000 7000 (lit "0.5")).
  - refine (bool_decide_unpack _ _). vm_compute. exact I.
  - exists 0, [], [EvInput (lit "hello"); EvSend 1000 5000 0; EvWelcome 2000 (lit "0.1")].
    reflexivity.
  - reflexivity.
  - vm_compute. discriminate.
Defined.

(** ** The end of the session *)

(** C3: [handleEndSession], run in any world a session can reach, sets
    [sessionEnded] and at once leaves no timer of the scheduler pending;
    whatever happens afterwards the session stays ended and no timer of
    the scheduler is ever pending again, so none can append a message.
    Moreover (agents told apart by their ids) the callback of a timer that
    was pending before the end, were it still to run, returns without a
    change. *)
Theorem end_session_cancels_scheduled_turns
    (page : Page) (scenario : option Scenario)
    (generateAgentResponse :
       jsstring -> Agent -> DifficultyLevel -> list jsstring -> AgentPromptContext
       -> jsstring + JsError)
    (calculateScore : nat -> Z -> DifficultyLevel -> Z)
    (generatedAgents : list Agent)
    (w : World) (now : Z) (evs : list Event) :
  reachable page scenario generateAgentResponse calculateScore generatedAgents w ->
  let ended :=
    step page scenario generateAgentResponse calculateScore generatedAgents (EvEnd now) w in
  let later :=
    run page scenario generateAgentResponse calculateScore generatedAgents evs ended in
  sessionEnded (st ended) = true
  /\ agentResponseTimers ended = []
  /\ (forall timer body,
        timers ended !! timer = Some body -> isAgentResponseTimer body = false)
  /\ sessionEnded (st later) = true
  /\ (forall timer body,
        timers later !! timer = Some body -> isAgentResponseTimer body = false)
  /\ (NoDup (List.map agent_id generatedAgents) ->
      forall timer sc env selected delay now' rnd,
        timers w !! timer = Some (AgentResponseTimer sc env selected delay) ->
        agentResponseCallback generateAgentResponse sc env selected now' rnd later
        = Returned later).
Proof.
  intros Hreach ended later.
  assert (Hend : sessionEnded (st ended) = true) by apply end_sets_sessionEnded.
  assert (Htr : tracked ended).
  { apply tracked_step. by eapply reachable_tracked. }
  assert (Hlater : sessionEnded (st later) = true) by by apply ended_run.
  split; [done|]. split; [apply end_empties_agentResponseTimers|].
  split; [by apply tracked_ended|]. split; [done|].
  split; [apply tracked_ended; [by apply tracked_run | done]|].
  intros Hdistinct timer sc env selected delay now' rnd Hlook.
  by eapply pending_callback_returns.
Qed.

Lemma end_session_cancels_scheduled_turns_witness :
  sessionEnded (st (partyRun [EvEnd 3000; EvFire 1 7000 (lit "0.5")] sent)) = true
  /\ messages (st (partyRun [EvEnd 3000; EvFire 1 7000 (lit "0.5")] sent))
     = messages (st sent).
Proof.
  destruct (end_session_cancels_scheduled_turns RemoteInterviewerPage (Some party)
              cannedReply flatScore [host; guest] sent 3000 [EvFire 1 7000 (lit "0.5")])
    as (_ & _ & _ & Hlater & _).
  - exists 0, [], [EvInput (lit "hello"); EvSend 1000 5000 0]. reflexivity.
  - split; [exact Hlater | reflexivity].
Defined.

(** ** Scheduling twice *)

(** Whenever a call of [scheduleAgentResponse] sets a timer, a second call
    for the same turn index, from any render, changes nothing. *)
Lemma schedule_twice_sets_one_timer
    (scenario : option Scenario) (env1 env2 : PageState) (s1 s2 : ConversationState)
    (delay1 delay2 : Z) (w : World) :
  turnIndex s1 = turnIndex s2 ->
  timers (scheduleAgentResponse scenario env1 (Some s1) delay1 w) <> timers w ->
  scheduleAgentResponse scenario env2 (Some s2) delay2
    (scheduleAgentResponse scenario env1 (Some s1) delay1 w)
  = scheduleAgentResponse scenario env1 (Some s1) delay1 w.
Proof.
  intros Hturn Hset. apply scheduleAgentResponse_marked.
  destruct (scheduleAgentResponse_cases scenario env1 (Some s1) delay1 w)
    as [[_ Heq] | [(sc & _ & _ & _ & _ & Heq) | (sc & sel & _ & _ & _ & _ & _ & _ & Heq)]];
    rewrite Heq in *; simpl in *; [done | done | congruence].
Qed.

(** C2, on the page as it runs: the user types "hello" and sends it.  The
    call of [scheduleAgentResponse] inside [handleSendMessage] sets exactly
    one timer, a second call for the same turn changes nothing, and when
    the timer fires the callback returns at its gate check, because the
    [convState] it reads is the one of the render that scheduled it, from
    before the user message: no message is appended, the state goes on
    awaiting the agent and the marker keeps naming turn 0. *)
Theorem scheduled_reply_is_dropped :
  map_to_list (timers sent) = [(1%nat, AgentResponseTimer party (st typed) host 5000)]
  /\ agentResponseTimers sent = [1%nat]
  /\ scheduledTurnRef sent = Some 0
  /\ scheduleAgentResponse (Some party) (st typed) (Some (convState (st sent))) 5000 sent
     = sent
  /\ forall (now : Z) (rnd : jsstring),
       messages (st (partyRun [EvFire 1 now rnd] sent)) = [userMessage (lit "hello") 1000]
       /\ messages (st (partyRun [EvFire 1 now rnd] sent)) = messages (st sent)
       /\ convState (st (partyRun [EvFire 1 now rnd] sent))
          = {| turnIndex := 0; awaitingAgentTurn := true |}
       /\ scheduledTurnRef (partyRun [EvFire 1 now rnd] sent) = Some 0
       /\ timers (partyRun [EvFire 1 now rnd] sent) = ∅.
Proof.
  split; [by vm_compute|]. split; [done|]. split; [done|]. split; [by vm_compute|].
  intros now rnd. by vm_compute.
Qed.

(** * Further properties of the pages *)

(** ** The voice analysis report *)

Section VoiceAnalysisFacts.

Import VoiceAnalysis.

Lemma below_spec (n d : Z) : below n d = true <-> 0 <= d < n.
Proof. unfold below. rewrite andb_true_iff, Z.leb_le, Z.ltb_lt. done. Qed.

Lemma drawn_spec (d : Draws) :
  drawn d = true ->
  0 <= drawOverall d < 30 /\ 0 <= drawStutters d < 8 /\ 0 <= drawFillers d < 3
  /\ 0 <= drawRepetitions d < 10 /\ 0 <= drawWpm d < 50 /\ 0 <= drawSpeaking d < 30
  /\ 0 <= drawPause d < 10 /\ 0 <= drawClarity d < 15 /\ 0 <= drawVolume d < 20
  /\ 0 <= drawPitch d < 20.
Proof.
  unfold drawn. rewrite !andb_true_iff, !below_spec. tauto.
Qed.

(** A property checked on every integer from 0 up to [n] holds of each. *)
Lemma checked_below (check : Z -> bool) (n z : Z) :
  forallb check (seqZ 0 n) = true -> 0 <= z < n -> check z = true.
Proof.
  intros Hall Hz. rewrite forallb_forall in Hall. apply Hall.
  apply list_elem_of_In, elem_of_seqZ. lia.
Qed.

(** The scores of a generated report stay in their bands, which are one
    short of the upper ends the comments of the source name (94, not 95,
    for the overall score; 129, not 130, for the pace); no generated report
    grades stutters or pace "D", filler words are graded "A" or "B", and
    the overall score is never shown in red. *)
Theorem generated_report_in_bounds (d : Draws) :
  drawn d = true ->
  65 <= overallScore (generateVoiceAnalysis d) <= 94
  /\ 80 <= wordsPerMinute (speechPace (generateVoiceAnalysis d)) <= 129
  /\ paceGrade (speechPace (generateVoiceAnalysis d)) <> D
  /\ grade (stutters (fluencyAnalysis (generateVoiceAnalysis d))) <> D
  /\ (grade (fillerWords (fluencyAnalysis (generateVoiceAnalysis d))) = A
      \/ grade (fillerWords (fluencyAnalysis (generateVoiceAnalysis d))) = B)
  /\ 85 <= clarity (voiceQuality (generateVoiceAnalysis d)) <= 99
  /\ 75 <= volumeConsistency (voiceQuality (generateVoiceAnalysis d)) <= 94
  /\ 75 <= pitchConsistency (voiceQuality (generateVoiceAnalysis d)) <= 94
  /\ getScoreColor (overallScore (generateVoiceAnalysis d)) <> lit "text-red-600".
Proof.
  intros Hd. apply drawn_spec in Hd.
  destruct Hd as (Ho & Hs & Hf & Hr & Hw & Hsp & Hp & Hc & Hv & Hpi).
  cbn [generateVoiceAnalysis overallScore speechPace wordsPerMinute paceGrade fluencyAnalysis
       stutters fillerWords grade voiceQuality clarity volumeConsistency pitchConsistency].
  repeat split; try lia.
  - unfold getPaceGrade.
    repeat (case_match; try done); repeat (match goal with
      | H : (_ && _) = false |- _ => apply andb_false_iff in H as [H|H]
      | H : (_ <=? _) = false |- _ => apply Z.leb_gt in H
      | H : (_ <? _) = false |- _ => apply Z.ltb_ge in H
      end); lia.
  - unfold getGrade, atMost. cbn [nth_error].
    repeat (case_match; try done).
    repeat (match goal with H : (_ <=? _) = false |- _ => apply Z.leb_gt in H end). lia.
  - unfold getGrade, atMost. cbn [nth_error].
    repeat (case_match; try (by left); try (by right)).
    all: repeat (match goal with H : (_ <=? _) = false |- _ => apply Z.leb_gt in H end); lia.
  - unfold getScoreColor.
    repeat (case_match; try done).
    repeat (match goal with H : (_ <=? _) = false |- _ => apply Z.leb_gt in H end). lia.
Qed.

Lemma generated_report_in_bounds_witness :
  overallScore (generateVoiceAnalysis flatPitch) = 85
  /\ paceGrade (speechPace (generateVoiceAnalysis flatPitch)) <> D.
Proof.
  destruct (generated_report_in_bounds flatPitch) as (_ & _ & Hpace & _).
  - reflexivity.
  - split; [reflexivity | exact Hpace].
Defined.

(** The report lists one or two areas for improvement, never none and
    never more: two when none of the six conditions fires (the two stock
    entries) or when several do, and a single one when exactly one
    fires. *)
Theorem improvements_listed (d : Draws) :
  length (areasForImprovement (generateVoiceAnalysis d))
  = if (findings d =? 1)%nat then 1%nat else 2%nat.
Proof.
  cbn [generateVoiceAnalysis areasForImprovement]. unfold findings, pushIf.
  destruct (3 <? drawStutters d), ((drawWpm d + 80 <? 100) || (150 <? drawWpm d + 80)),
    (0 <? drawFillers d), (drawClarity d + 85 <? 90), (drawVolume d + 75 <? 85),
    (drawPitch d + 75 <? 85); reflexivity.
Qed.

(** The speaking and the pause time of a generated report read "0:" and
    the two-digit decimal of the seconds drawn: 30 to 59 seconds of
    speaking, 0 to 9 of pause. *)
Theorem generated_times_read_minutes_seconds (d : Draws) :
  drawn d = true ->
  readsAs (drawSpeaking d + 30) (speakingTime (speechPace (generateVoiceAnalysis d))) = true
  /\ readsAs (drawPause d) (pauseTime (speechPace (generateVoiceAnalysis d))) = true.
Proof.
  intros Hd. apply drawn_spec in Hd.
  destruct Hd as (_ & _ & _ & _ & _ & Hsp & Hp & _).
  cbn [generateVoiceAnalysis speechPace speakingTime pauseTime]. split.
  - apply (checked_below
             (fun z => readsAs (z + 30) (lit "0:" ++ padStart 2 48 (showZ (z + 30)))) 30);
      [by vm_compute | done].
  - apply (checked_below
             (fun z => readsAs z (lit "0:" ++ padStart 2 48 (showZ z))) 10);
      [by vm_compute | done].
Qed.

Lemma generated_times_read_minutes_seconds_witness :
  speakingTime (speechPace (generateVoiceAnalysis flatPitch)) = lit "0:37"
  /\ pauseTime (speechPace (generateVoiceAnalysis flatPitch)) = lit "0:03".
Proof.
  destruct (generated_times_read_minutes_seconds flatPitch eq_refl) as [_ _].
  split; reflexivity.
Defined.

(** A report with a single area for improvement: only the pitch falls
    short. *)
Example single_improvement :
  areasForImprovement (generateVoiceAnalysis flatPitch)
  = [lit "Vary your pitch more to keep the audience engaged."].
Proof. reflexivity. Qed.

End VoiceAnalysisFacts.

(** ** The presentation flow *)

Section PresentationFacts.

Import Presentation.

Lemma drop_nth_error {T : Type} (l : list T) (i : nat) (x : T) :
  nth_error l i = Some x -> drop i l = x :: drop (S i) l.
Proof.
  revert i. induction l as [|y l IH]; intros [|i]; simpl; try done.
  - by intros [= ->].
  - intros H. by rewrite (IH i H).
Qed.

Lemma drop_nth_error_None {T : Type} (l : list T) (i : nat) :
  nth_error l i = None -> drop i l = [].
Proof.
  revert i. induction l as [|y l IH]; intros [|i]; simpl; try done. apply IH.
Qed.

Lemma findIndexFrom_absent {T : Type} (test : T -> bool) (from : Z) (l : list T) :
  Forall (fun x => test x = false) l -> findIndexFrom test from l = -1.
Proof.
  intros H. revert from. induction H as [|x l Hx _ IH]; intros from; simpl; [done|].
  by rewrite Hx.
Qed.

Lemma findIndexFrom_position (l : list FlowSection) (from : Z) (i : nat) (s : FlowSection) :
  NoDup (List.map section_id l) -> nth_error l i = Some s ->
  findIndexFrom (fun x => bool_decide (section_id x = section_id s)) from l
  = from + Z.of_nat i.
Proof.
  revert from i. induction l as [|x l IH]; intros from [|i] Hnd Hi; simpl in *; try done.
  - injection Hi as ->. rewrite bool_decide_eq_true_2 by done. lia.
  - apply NoDup_cons in Hnd as [Hx Hnd].
    rewrite bool_decide_eq_false_2.
    + rewrite (IH (from + 1) i Hnd Hi). lia.
    + intros Heq. apply Hx. rewrite Heq. apply list_elem_of_In, in_map.
      by eapply nth_error_In.
Qed.

(** In a flow whose sections have distinct ids, [advanceToNextSection]
    moves from a section to the one listed after it, and stays where it is
    on the last one. *)
Theorem advance_moves_to_next_section
    (flow : PresentationalFlow) (i : nat) (current : FlowSection) :
  NoDup (List.map section_id (getAllSections (Some flow))) ->
  nth_error (getAllSections (Some flow)) i = Some current ->
  advanceToNextSection (Some flow) (section_id current)
  = match nth_error (getAllSections (Some flow)) (S i) with
    | Some next => section_id next
    | None => section_id current
    end.
Proof.
  intros Hnd Hi. unfold advanceToNextSection, findIndex.
  rewrite (findIndexFrom_position _ 0 i current Hnd Hi).
  replace (Z.to_nat (0 + Z.of_nat i + 1)) with (S i) by lia.
  destruct (nth_error (getAllSections (Some flow)) (S i)) as [next|] eqn:Hnext.
  - assert (S i < length (getAllSections (Some flow)))%nat.
    { apply nth_error_Some. congruence. }
    rewrite (proj2 (Z.ltb_lt _ _)) by lia. done.
  - by destruct (_ <? _).
Qed.

Lemma advance_moves_to_next_section_witness :
  advanceToNextSection (Some HARDCODED_FLOW) (lit "section-2") = lit "conclusion".
Proof.
  apply (advance_moves_to_next_section HARDCODED_FLOW 2
           {| section_id := lit "section-2";
              title := lit "Start Today, Not Tomorrow";
              goals :=
                [ lit "I want to tell you that waiting 10 years costs you half your retirement money";
                  lit "I want you to download Vanguard app right now and open an account - it takes 5 minutes" ] |}).
  - refine (bool_decide_unpack _ _). vm_compute. exact I.
  - reflexivity.
Defined.

(** When [currentFlowSection] names no section of the flow,
    [advanceToNextSection] jumps to the opening section: [findIndex]
    answers -1, which is below the last index.  Without a flow it changes
    nothing. *)
Theorem advance_from_unknown_section (flow : PresentationalFlow) (current : jsstring) :
  Forall (fun s => section_id s <> current) (getAllSections (Some flow)) ->
  advanceToNextSection (Some flow) current = section_id (intro flow)
  /\ advanceToNextSection None current = current.
Proof.
  intros H. split; [|done]. unfold advanceToNextSection, findIndex.
  rewrite findIndexFrom_absent.
  - simpl. rewrite (proj2 (Z.ltb_lt _ _)); [done|]. rewrite length_app. simpl. lia.
  - eapply Forall_impl; [exact H|]. intros s Hs. by apply bool_decide_eq_false_2.
Qed.

Lemma advance_from_unknown_section_witness :
  advanceToNextSection (Some HARDCODED_FLOW) (lit "summary") = lit "intro".
Proof.
  apply (advance_from_unknown_section HARDCODED_FLOW (lit "summary")).
  refine (bool_decide_unpack _ _). vm_compute. exact I.
Defined.

(** Four clicks on "next" walk the hardcoded flow from the opening to the
    questions, where a fifth click stays. *)
Example hardcoded_flow_walk :
  let next := advanceToNextSection (Some HARDCODED_FLOW) in
  List.map (fun k => Nat.iter k next (lit "intro")) [1; 2; 3; 4; 5]%nat
  = [lit "section-1"; lit "section-2"; lit "conclusion"; lit "qa"; lit "qa"].
Proof. vm_compute. reflexivity. Qed.

(** ** The questions of the audience *)

Lemma askFrom_contents (agents : list Agent) (index : nat) (clock : list Z) :
  agents <> [] ->
  List.map content (askFrom agents index clock)
  = List.map question (take (length clock) (drop index QA_QUESTIONS)).
Proof.
  intros Hne. revert index. induction clock as [|now later IH]; intros index; [done|].
  cbn [askFrom]. unfold askQuestion.
  destruct (nth_error QA_QUESTIONS index) as [qa|] eqn:Hqa.
  - rewrite (drop_nth_error _ _ _ Hqa). destruct agents as [|first rest]; [done|].
    destruct (S index <? length QA_QUESTIONS)%nat eqn:Hmore.
    + cbn [List.map length take content]. by rewrite IH.
    + apply Nat.ltb_ge in Hmore. rewrite drop_ge by done.
      cbn [List.map length take content]. by rewrite take_nil.
  - by rewrite (drop_nth_error_None _ _ Hqa), take_nil.
Qed.

Lemma askFrom_askers (agents : list Agent) (index : nat) (clock : list Z) :
  Forall (fun m => isUser m = false
                   /\ exists a, In a agents /\ agentId m = agent_id a
                                /\ agentName m = agent_name a)
         (askFrom agents index clock).
Proof.
  revert index. induction clock as [|now later IH]; intros index; [constructor|].
  cbn [askFrom]. unfold askQuestion.
  destruct (nth_error QA_QUESTIONS index) as [qa|]; [|constructor].
  destruct agents as [|first rest] eqn:Hagents; [constructor|]. rewrite <- Hagents.
  assert (Hin : In (nth (agentIndex qa mod length agents) agents first) agents).
  { apply nth_In, Nat.mod_upper_bound. by rewrite Hagents. }
  destruct (S index <? length QA_QUESTIONS)%nat.
  - constructor; [|rewrite Hagents; apply IH]. split; [done|]. by eexists.
  - constructor; [|constructor]. split; [done|]. by eexists.
Qed.

(** Once the questions have started, with at least one agent, the chain of
    timers asks the questions of the table in their order, one per timer,
    and stops after the twelfth; each is a message of one of the agents.
    With no agent nothing is asked. *)
Theorem questions_are_asked_in_order (agents : list Agent) (clock : list Z) :
  agents <> [] ->
  List.map content (askFrom agents 0 clock)
  = List.map question (take (length clock) QA_QUESTIONS)
  /\ length (askFrom agents 0 clock) = Nat.min (length clock) 12
  /\ Forall (fun m => isUser m = false
                      /\ exists a, In a agents /\ agentId m = agent_id a
                                   /\ agentName m = agent_name a)
            (askFrom agents 0 clock)
  /\ askFrom [] 0 clock = [].
Proof.
  intros Hne.
  assert (Hc := askFrom_contents agents 0 clock Hne). rewrite drop_0 in Hc.
  split; [done|]. split; [|split; [apply askFrom_askers|by destruct clock]].
  apply (f_equal (@length jsstring)) in Hc.
  rewrite !length_map, length_take in Hc. by rewrite Hc.
Qed.

Lemma questions_are_asked_in_order_witness :
  length (askFrom [host; guest] 0 [31000; 38000; 46500]) = 3%nat.
Proof.
  destruct (questions_are_asked_in_order [host; guest] [31000; 38000; 46500])
    as (_ & Hlen & _).
  - discriminate.
  - exact Hlen.
Defined.

End PresentationFacts.

(** ** Sessions of the interview page *)

Section InterviewSessionFacts.

Import InterviewSession MoreSamples.

Lemma trimStart_head (s : jsstring) (c : N) (r : jsstring) :
  trimStart s = c :: r -> isWhiteSpace c = false.
Proof.
  induction s as [|d s IH]; simpl; [done|].
  destruct (isWhiteSpace d) eqn:Ed; [done|]. by intros [= <- _].
Qed.

Lemma trim_visible (s : jsstring) :
  truthy (trim s) = true -> truthy (trim (trim s)) = true.
Proof.
  intros Hs. destruct (trim (trim s)) eqn:E; [|done].
  apply trim_nil_whitespaceOnly in E. revert Hs E.
  change (trim s) with (rev (trimStart (rev (trimStart s)))).
  destruct (trimStart (rev (trimStart s))) as [|c r] eqn:Eu; [done|].
  intros _ Hw. apply trimStart_head in Eu.
  unfold whitespaceOnly in Hw. rewrite forallb_forall in Hw.
  rewrite Hw in Eu; [done|]. rewrite <- in_rev. by left.
Qed.

Lemma step_keeps_recognition (ev : Event) (p : Page) :
  recognitionRef (step ev p).1 = recognitionRef p.
Proof.
  destruct ev as [event now nowSpeech|outcome now]; simpl; [|done].
  destruct (recognitionRef p) as [env|] eqn:Href; [|done].
  by destruct (Interview.onresult env event now nowSpeech (state p)).
Qed.

Lemma heard_request (env w : Interview.State) (event : SpeechEvent) (now nowSpeech : Z)
    (r : Request) :
  (Interview.onresult env event now nowSpeech w).2 = Some r ->
  req_conversationHistory r = Interview.conversationHistory env.
Proof.
  unfold Interview.onresult.
  destruct (collectTranscripts event) as [interimText finalText].
  destruct (truthy (trim finalText)); [|done].
  destruct (1500 <? _); [|done].
  unfold Interview.handleUserSpeech.
  destruct (negb (truthy (trim (trim finalText))) || Interview.isProcessing env); [done|].
  simpl. by intros [= <-].
Qed.

Lemma run_requests (env : Interview.State) (evs : list Event) (p : Page) :
  recognitionRef p = Some env ->
  Forall (fun r => req_conversationHistory r = Interview.conversationHistory env)
         (run evs p).2.
Proof.
  revert p. induction evs as [|ev later IH]; intros p Href; [constructor|].
  cbn [run]. pose proof (step_keeps_recognition ev p) as Hkeep.
  destruct (step ev p) as [p1 request] eqn:Hstep. simpl in Hkeep.
  specialize (IH p1 ltac:(congruence)).
  destruct (run later p1) as [p2 requests]. simpl in *.
  destruct request as [r|]; [|done]. constructor; [|done].
  destruct ev as [event now nowSpeech|outcome now]; simpl in Hstep; [|by simplify_eq].
  rewrite Href in Hstep.
  destruct (Interview.onresult env event now nowSpeech (state p)) as [s request'] eqn:Hres.
  simplify_eq. apply (heard_request env (state p) event now nowSpeech). by rewrite Hres.
Qed.

(** Every request a session of the interview page sends carries the
    conversation history of the render that ran [startSession], however
    many replies have been received since: [onresult] calls the
    [handleUserSpeech] of that render, whose [conversationHistory] is a
    constant. *)
Theorem requests_carry_history_of_start
    (env p : Page) (now : Z) (startFails : bool) (evs : list Event) :
  speechSupported env = true ->
  Forall (fun r => req_conversationHistory r = Interview.conversationHistory (state env))
         (run evs (startSession env now startFails p)).2.
Proof.
  intros Hsup. apply run_requests. unfold startSession. rewrite Hsup. simpl.
  by destruct startFails.
Qed.

Lemma requests_carry_history_of_start_witness :
  Forall (fun r => req_conversationHistory r = [])
    (run [ Heard (heard "hello") 2000 2001; Settled (answered "Welcome.") 3000;
           Heard (heard "I am a nurse") 9000 9001 ]
       (startSession fresh 100 false fresh)).2.
Proof.
  apply (requests_carry_history_of_start fresh fresh 100 false
           [ Heard (heard "hello") 2000 2001; Settled (answered "Welcome.") 3000;
             Heard (heard "I am a nurse") 9000 9001 ]).
  reflexivity.
Defined.

(** The processing flag does not hold back speech: once a session has been
    started by a render that was not processing, a final transcript with
    visible text outside the debounce window is sent to the endpoint even
    while an earlier call is in flight. *)
Theorem speech_is_sent_while_processing
    (env p : Page) (now0 : Z) (event : SpeechEvent) (now nowSpeech : Z) :
  speechSupported env = true ->
  Interview.isProcessing (state env) = false ->
  truthy (trim (collectTranscripts event).2) = true ->
  1500 < now - Interview.lastTranscriptTimeRef (state p) ->
  (step (Heard event now nowSpeech)
     (onState (Interview.setIsProcessing true) (startSession env now0 false p))).2
  = Some {| req_userInput := trim (collectTranscripts event).2;
            req_conversationHistory := Interview.conversationHistory (state env) |}.
Proof.
  intros Hsup Hidle Htext Hwindow. unfold startSession. rewrite Hsup. simpl.
  unfold Interview.onresult.
  destruct (collectTranscripts event) as [interimText finalText]. simpl in *.
  rewrite Htext. apply Z.ltb_lt in Hwindow. rewrite Hwindow.
  unfold Interview.handleUserSpeech. rewrite Hidle.
  by rewrite (trim_visible finalText Htext).
Qed.

Lemma speech_is_sent_while_processing_witness :
  (step (Heard (heard "hello") 2000 2001)
     (onState (Interview.setIsProcessing true) (startSession fresh 100 false fresh))).2
  = Some {| req_userInput := lit "hello"; req_conversationHistory := [] |}.
Proof.
  apply (speech_is_sent_while_processing fresh fresh 100 (heard "hello") 2000 2001).
  - reflexivity.
  - reflexivity.
  - reflexivity.
  - simpl. lia.
Defined.

(** [resetSession] does not cancel a call in flight: its reply is appended
    to the emptied conversation and the history it returns is installed,
    on a page whose session is stopped. *)
Theorem reply_after_reset_is_shown
    (p : Page) (response : jsstring) (history : list ConversationMessage) (now : Z) :
  List.map Interview.content
    (Interview.messages
       (state (step (Settled (HttpOk (OkBodyData response history)) now) (resetSession p)).1))
  = [response]
  /\ Interview.conversationHistory
       (state (step (Settled (HttpOk (OkBodyData response history)) now) (resetSession p)).1)
     = history
  /\ Interview.sessionActive
       (state (step (Settled (HttpOk (OkBodyData response history)) now) (resetSession p)).1)
     = false
  /\ recognitionRef (step (Settled (HttpOk (OkBodyData response history)) now)
                       (resetSession p)).1
     = None.
Proof. done. Qed.

End InterviewSessionFacts.

(** ** The scheduler of agent turns *)

Section SchedulerFacts.

(** The design of the scheduler at work: when [scheduleAgentResponse] is
    called by a render that itself awaits the agent turn the snapshot
    names, in a world whose marker does not name that turn yet, it sets
    one timer under a fresh handle; when that timer fires and the
    generator returns, exactly one message of the selected agent is
    appended, the live conversation state advances, the marker is cleared
    and no timer is left behind. *)
Theorem schedule_then_fire_replies
    (generateAgentResponse :
       jsstring -> Agent -> DifficultyLevel -> list jsstring -> AgentPromptContext
       -> jsstring + JsError)
    (sc : Scenario) (env : PageState) (snap : option ConversationState)
    (selected : Agent) (delay now : Z) (rnd : jsstring) (w : World) :
  agents env <> [] ->
  sessionEnded env = false ->
  canGenerateAgentResponse (convState env) = true ->
  canGenerateAgentResponse (default (convState env) snap) = true ->
  turnIndex (default (convState env) snap) = turnIndex (convState env) ->
  scheduledTurnRef w <> Some (turnIndex (convState env)) ->
  selectAgentToSpeak (messages env) sc (agents env) ActiveHost = Some selected ->
  timers w !! nextTimer w = None ->
  (forall type a d history ctx, exists response,
      generateAgentResponse type a d history ctx = inl response) ->
  let scheduled := scheduleAgentResponse (Some sc) env snap delay w in
  let fired := fireTimer generateAgentResponse (nextTimer w) now rnd scheduled in
  timers scheduled = <[nextTimer w := AgentResponseTimer sc env selected delay]> (timers w)
  /\ scheduledTurnRef scheduled = Some (turnIndex (convState env))
  /\ (exists response,
        messages (st fired) = messages (st w) ++ [agentMessage selected response now rnd])
  /\ convState (st fired) = advanceAfterAgentResponse (convState (st w)) (agent_id selected)
  /\ scheduledTurnRef fired = None
  /\ timers fired = timers w.
Proof.
  intros Hagents Hend Hgate Hsnap Hturn Hmark Hsel Hfresh Hgen scheduled fired.
  assert (Hs : scheduled
               = Build_World (st w) (Some (turnIndex (convState env)))
                   (agentResponseTimers w ++ [nextTimer w])
                   (lastTranscriptTimeRef w) (qaTimerRef w)
                   (<[nextTimer w := AgentResponseTimer sc env selected delay]> (timers w))
                   (S (nextTimer w)) (practiceSessions w)).
  { subst scheduled. unfold scheduleAgentResponse.
    rewrite bool_decide_eq_false_2 by (by destruct (agents env)).
    rewrite Hend, Hsnap, Hturn. simpl.
    rewrite bool_decide_eq_false_2 by done. by rewrite Hsel. }
  subst fired. rewrite Hs. unfold fireTimer. simpl. rewrite lookup_insert_eq.
  unfold agentResponseCallback. rewrite Hend, Hgate. simpl.
  rewrite bool_decide_eq_true_2 by done. simpl.
  match goal with
  | |- context [generateAgentResponse ?type ?a ?d ?history ?ctx] =>
      destruct (Hgen type a d history ctx) as [response Hres]; rewrite Hres
  end.
  simpl. split; [done|]. split; [done|]. split; [by exists response|].
  split; [done|]. split; [done|]. by apply delete_insert_id.
Qed.

Lemma schedule_then_fire_replies_witness :
  exists response,
    messages (st (fireTimer cannedReply 2 7000 (lit "0.5")
                    (scheduleAgentResponse (Some party) (st sent) None 5000
                       (setScheduledTurn None sent))))
    = messages (st sent) ++ [agentMessage host response 7000 (lit "0.5")].
Proof.
  refine (proj1 (proj2 (proj2
    (schedule_then_fire_replies cannedReply party (st sent) None host 5000 7000 (lit "0.5")
       (setScheduledTurn None sent) _ _ _ _ _ _ _ _ _)))).
  - discriminate.
  - reflexivity.
  - reflexivity.
  - reflexivity.
  - reflexivity.
  - discriminate.
  - reflexivity.
  - reflexivity.
  - intros type a d history ctx. by exists (lit "Nice to meet you.").
Defined.

End SchedulerFacts.

(** ** Sessions in which the user only types *)

Section TypedSessions.

Import Kinds.

Variable page : Page.
Variable scenario : option Scenario.
Variable generateAgentResponse :
  jsstring -> Agent -> DifficultyLevel -> list jsstring -> AgentPromptContext
  -> jsstring + JsError.
Variable calculateScore : nat -> Z -> DifficultyLevel -> Z.
Variable generatedAgents : list Agent.

Local Abbreviation step'' :=
  (step page scenario generateAgentResponse calculateScore generatedAgents).
Local Abbreviation run'' :=
  (run page scenario generateAgentResponse calculateScore generatedAgents).
Local Abbreviation reachable'' :=
  (reachable page scenario generateAgentResponse calculateScore generatedAgents).

Lemma userTurn_messages (env : PageState) (delay : Z) (w : World) :
  messages (st (RemoteInterviewer.userTurn scenario env delay w)) = messages (st w).
Proof.
  unfold RemoteInterviewer.userTurn.
  destruct (negb (bool_decide (length (agents env) = 0%nat)) && negb (sessionEnded env));
    [|done].
  by destruct (scheduleAgentResponse_cases scenario env
              (Some (updateStateOnUserMessage (convState (st w)))) delay w)
    as [[_ ->] | [(sc & _ & _ & _ & _ & ->) | (sc & sel & _ & _ & _ & _ & _ & _ & ->)]].
Qed.

Lemma userTurn_timers (env : PageState) (delay : Z) (w : World) (timer : nat)
    (body : TimerBody) :
  timers (RemoteInterviewer.userTurn scenario env delay w) !! timer = Some body ->
  timers w !! timer = Some body \/ isAgentResponseTimer body = true.
Proof.
  unfold RemoteInterviewer.userTurn.
  destruct (negb (bool_decide (length (agents env) = 0%nat)) && negb (sessionEnded env));
    [|by left].
  destruct (scheduleAgentResponse_cases scenario env
              (Some (updateStateOnUserMessage (convState (st w)))) delay w)
    as [[_ ->] | [(sc & _ & _ & _ & _ & ->) | (sc & sel & _ & _ & _ & _ & _ & _ & ->)]];
    simpl; [by left | by left |].
  destruct (decide (nextTimer w = timer)) as [<-|Hne].
  - rewrite lookup_insert_eq. intros [= <-]. by right.
  - rewrite lookup_insert_ne by done. by left.
Qed.

Hypothesis distinct_ids : NoDup (List.map agent_id generatedAgents).
Hypothesis local_agents :
  page = RemoteInterviewerPage \/ PresentationFlow.isPresentation scenario = false.

Lemma typed_step (ev : Event) (w : World) :
  typedOnly ev = true ->
  reachable'' w ->
  Forall (fun m => isUser m = true) (messages (st w)) ->
  (forall timer body, timers w !! timer = Some body -> isAgentResponseTimer body = true) ->
  Forall (fun m => isUser m = true) (messages (st (step'' ev w)))
  /\ (forall timer body,
        timers (step'' ev w) !! timer = Some body -> isAgentResponseTimer body = true).
Proof.
  intros Hev Hreach Hmsgs Htimers.
  assert (Hturn : forall env delay w0,
            Forall (fun m => isUser m = true) (messages (st w0)) ->
            (forall timer body, timers w0 !! timer = Some body ->
                                isAgentResponseTimer body = true) ->
            Forall (fun m => isUser m = true)
              (messages (st (RemoteInterviewer.userTurn scenario env delay w0)))
            /\ (forall timer body,
                  timers (RemoteInterviewer.userTurn scenario env delay w0) !! timer
                  = Some body -> isAgentResponseTimer body = true)).
  { intros env delay w0 Hm Ht. split; [by rewrite userTurn_messages|].
    intros timer body [Hold|Hnew]%userTurn_timers; [by eapply Ht | done]. }
  assert (Hsent : forall now,
            Forall (fun m => isUser m = true)
              (messages (st w) ++ [userMessage (userInput (st w)) now])).
  { intros now. apply Forall_app. split; [done|]. by constructor. }
  destruct ev as [value|now delay r|timer now rnd|now|now rnd|ms|level|
                  |event now delay|outcome now rnd];
    simpl in *; try done.
  - destruct page.
    + unfold RemoteInterviewer.handleSendMessage.
      destruct (negb (truthy (trim (userInput (st w))))); [done|].
      apply Hturn; [apply Hsent | done].
    + destruct local_agents as [?|Hlocal]; [done|].
      unfold PresentationFlow.handleSendMessage.
      destruct (negb (truthy (trim (userInput (st w))))); [done|].
      rewrite Hlocal. apply Hturn; [apply Hsent | done].
  - unfold fireTimer.
    destruct (timers w !! timer) as [[sc env selected delay|agent response]|] eqn:Hlook;
      [| |done].
    + rewrite (pending_callback_returns page scenario generateAgentResponse calculateScore
                 generatedAgents distinct_ids w (clearTimeout timer w) timer sc env selected
                 delay now rnd Hreach Hlook).
      simpl. split; [done|]. intros timer' body Hl.
      destruct (decide (timer = timer')) as [->|Hne].
      * by rewrite lookup_delete_eq in Hl.
      * rewrite lookup_delete_ne in Hl by done. by eapply Htimers.
    + by specialize (Htimers timer _ Hlook).
  - destruct page.
    + unfold RemoteInterviewer.handleEndSession. rewrite clearAll_world. simpl.
      split; [done|]. intros timer body Hl.
      apply lookup_clearAll_Some in Hl as [Hl _]. by eapply Htimers.
    + unfold PresentationFlow.handleEndSession. rewrite clearAll_world. simpl.
      destruct (qaTimerRef w) as [qa|]; simpl; (split; [done|]); intros timer body Hl.
      * destruct (decide (qa = timer)) as [->|Hne].
        -- by rewrite lookup_delete_eq in Hl.
        -- rewrite lookup_delete_ne in Hl by done.
           apply lookup_clearAll_Some in Hl as [Hl _]. by eapply Htimers.
      * apply lookup_clearAll_Some in Hl as [Hl _]. by eapply Htimers.
Qed.

(** Typed messages get no reply from the local agents: in a session in
    which the user only types and sends, whatever timers fire in between
    and whatever the generator would answer, every message of the
    conversation is one of the user.  (Any page but the presentation
    scenario of the presentation page, whose replies are hard-coded;
    agents told apart by their ids.) *)
Theorem typed_session_has_only_user_messages
    (mountTime : Z) (stored : list SessionSummary) (evs : list Event) :
  forallb typedOnly evs = true ->
  Forall (fun m => isUser m = true)
    (messages (st (run'' evs (initialWorld generatedAgents mountTime stored)))).
Proof.
  intros Hevs.
  cut (Forall (fun m => isUser m = true)
         (messages (st (run'' evs (initialWorld generatedAgents mountTime stored))))
       /\ (forall timer body,
             timers (run'' evs (initialWorld generatedAgents mountTime stored)) !! timer
             = Some body -> isAgentResponseTimer body = true)).
  { by intros [? _]. }
  induction evs as [|ev evs IH] using rev_ind.
  - simpl. split; [constructor|]. intros timer body. by rewrite lookup_empty.
  - rewrite forallb_app in Hevs. apply andb_prop in Hevs as [Hevs Hev].
    simpl in Hev. rewrite andb_true_r in Hev.
    destruct (IH Hevs) as [Hm Ht].
    unfold run. rewrite fold_left_app. simpl. apply typed_step; try done.
    by exists mountTime, stored, evs.
Qed.

End TypedSessions.

Lemma typed_session_has_only_user_messages_witness :
  Forall (fun m => isUser m = true)
    (messages (st (partyRun [ EvInput (lit "hello"); EvSend 1000 5000 0;
                              EvFire 1 7000 (lit "0.5"); EvInput (lit "anyone?");
                              EvSend 9000 5000 0; EvFire 2 15000 (lit "0.6") ]
                     mounted))).
Proof.
  apply (typed_session_has_only_user_messages RemoteInterviewerPage (Some party) cannedReply
           flatScore [host; guest]).
  - refine (bool_decide_unpack _ _). vm_compute. exact I.
  - by left.
  - reflexivity.
Defined.

(** ** The hard-coded replies of the presentation scenario *)

Section HardcodedReplies.

Import PresentationFlow.

(** [generateHardcodedResponse], called by a render with agents whose
    session has not ended, sets one timer under a fresh handle and touches
    no message; the reply it will deliver is spoken by one of the agents
    and is the entry of [INVESTMENT_RESPONSES] at the response index of
    that render, taken modulo the 8 entries of the list. *)
Theorem hardcoded_reply_is_from_the_list (env : PageState) (r : nat) (w : World) :
  agents env <> [] ->
  sessionEnded env = false ->
  exists agent response,
    agent ∈ agents env
    /\ INVESTMENT_RESPONSES !! (hardcodedResponseIndex env mod 8)%nat = Some response
    /\ timers (generateHardcodedResponse env r w)
       = <[nextTimer w := HardcodedResponseTimer agent response]> (timers w)
    /\ messages (st (generateHardcodedResponse env r w)) = messages (st w)
    /\ hardcodedResponseIndex (st (generateHardcodedResponse env r w))
       = S (hardcodedResponseIndex (st w)).
Proof.
  intros Hagents Hend. unfold generateHardcodedResponse.
  destruct (agents env) as [|first rest] eqn:Ha; [done|]. rewrite Hend.
  exists (nth (r mod length (first :: rest)) (first :: rest) first),
         (nth (hardcodedResponseIndex env mod length INVESTMENT_RESPONSES)
            INVESTMENT_RESPONSES []).
  assert (Hr : (r mod length (first :: rest) < length (first :: rest))%nat).
  { apply Nat.mod_upper_bound. simpl. lia. }
  assert (Hi : (hardcodedResponseIndex env mod 8 < 8)%nat).
  { apply Nat.mod_upper_bound. lia. }
  split.
  { apply list_elem_of_In, nth_In. exact Hr. }
  split; [|done].
  change (length INVESTMENT_RESPONSES) with 8%nat.
  generalize dependent (hardcodedResponseIndex env mod 8)%nat. intros i Hi.
  do 8 (destruct i as [|i]; [reflexivity|]). lia.
Qed.

Lemma hardcoded_reply_is_from_the_list_witness :
  exists agent response,
    agent ∈ [host; guest]
    /\ INVESTMENT_RESPONSES !! (0 mod 8)%nat = Some response
    /\ timers (generateHardcodedResponse (st mounted) 1 mounted)
       = <[nextTimer mounted := HardcodedResponseTimer agent response]> (timers mounted)
    /\ messages (st (generateHardcodedResponse (st mounted) 1 mounted)) = messages (st mounted)
    /\ hardcodedResponseIndex (st (generateHardcodedResponse (st mounted) 1 mounted))
       = S (hardcodedResponseIndex (st mounted)).
Proof.
  apply (hardcoded_reply_is_from_the_list (st mounted) 1 mounted).
  - discriminate.
  - reflexivity.
Defined.

End HardcodedReplies.

(** ** Sessions of the presentation scenario *)

Section PresentationSessions.

Import PresentationFlow.

Variable scenario : option Scenario.
Variable generateAgentResponse :
  jsstring -> Agent -> DifficultyLevel -> list jsstring -> AgentPromptContext
  -> jsstring + JsError.
Variable calculateScore : nat -> Z -> DifficultyLevel -> Z.
Variable generatedAgents : list Agent.

Hypothesis presentation : isPresentation scenario = true.

Local Abbreviation stepP :=
  (step PresentationPage scenario generateAgentResponse calculateScore generatedAgents).
Local Abbreviation runP :=
  (run PresentationPage scenario generateAgentResponse calculateScore generatedAgents).

(** The presentation scenario never uses the scheduler. *)
Lemma presentation_step (ev : Event) (w : World) :
  agentResponseTimers w = [] /\ qaTimerRef w = None ->
  agentResponseTimers (stepP ev w) = [] /\ qaTimerRef (stepP ev w) = None.
Proof.
  intros [Hl Hq].
  destruct ev as [value|now delay r|timer now rnd|now|now rnd|ms|level|
                  |event now delay|outcome now rnd];
    simpl; try done.
  - unfold handleSendMessage.
    destruct (negb (truthy (trim (userInput (st w))))); [done|].
    rewrite presentation. unfold generateHardcodedResponse.
    destruct (agents (st w)); [done|]. by destruct (sessionEnded (st w)).
  - unfold fireTimer.
    destruct (timers w !! timer) as [[sc env selected delay|agent response]|]; [|done|done].
    by destruct (agentResponseCallback_cases generateAgentResponse sc env selected now rnd
                   (clearTimeout timer w)) as [->|[response ->]].
  - unfold handleEndSession. rewrite clearAll_world. simpl. by rewrite Hq.
  - unfold welcomeCallback. by destruct generatedAgents.
Qed.

Lemma presentation_run (evs : list Event) (w : World) :
  agentResponseTimers w = [] /\ qaTimerRef w = None ->
  agentResponseTimers (runP evs w) = [] /\ qaTimerRef (runP evs w) = None.
Proof.
  revert w. induction evs as [|ev evs IH]; intros w H; [done|].
  simpl. apply IH. by apply presentation_step.
Qed.

(** Ending the session does not cancel a hard-coded reply: in any world a
    session of the presentation scenario can reach, a reply that is
    pending when [handleEndSession] runs is still pending afterwards, and
    when its timer fires the reply is appended to the conversation of the
    ended session. *)
Theorem hardcoded_reply_survives_end
    (w : World) (timer : nat) (agent : Agent) (response : jsstring)
    (now now' : Z) (rnd : jsstring) :
  reachable PresentationPage scenario generateAgentResponse calculateScore generatedAgents w ->
  timers w !! timer = Some (HardcodedResponseTimer agent response) ->
  sessionEnded (st (stepP (EvEnd now) w)) = true
  /\ timers (stepP (EvEnd now) w) !! timer = Some (HardcodedResponseTimer agent response)
  /\ messages (st (runP [EvEnd now; EvFire timer now' rnd] w))
     = messages (st w) ++ [agentMessage agent response now' rnd].
Proof.
  intros (mountTime & stored & evs & ->) Hlook.
  destruct (presentation_run evs (initialWorld generatedAgents mountTime stored))
    as [Hl Hq]; [done|].
  set (w := run PresentationPage scenario generateAgentResponse calculateScore
              generatedAgents evs (initialWorld generatedAgents mountTime stored)) in *.
  assert (Hended : timers (stepP (EvEnd now) w) = timers w).
  { simpl. unfold handleEndSession. rewrite clearAll_world. simpl. by rewrite Hq, Hl. }
  assert (Hmsgs : messages (st (stepP (EvEnd now) w)) = messages (st w)).
  { simpl. unfold handleEndSession. rewrite clearAll_world. simpl. by rewrite Hq. }
  split; [by apply end_sets_sessionEnded|]. split; [by rewrite Hended|].
  change (runP [EvEnd now; EvFire timer now' rnd] w)
    with (fireTimer generateAgentResponse timer now' rnd (stepP (EvEnd now) w)).
  revert Hended Hmsgs. generalize (stepP (EvEnd now) w). intros ended Hended Hmsgs.
  unfold fireTimer. rewrite Hended, Hlook. simpl. by rewrite Hmsgs.
Qed.

End PresentationSessions.

Lemma hardcoded_reply_survives_end_witness :
  List.map isUser
    (messages (st (MoreSamples.talkRun
                     [ EvInput (lit "hello"); EvSend 1000 5000 1; EvEnd 2000;
                       EvFire 1 3000 (lit "0.5") ]
                     mounted)))
  = [true; false].
Proof.
  pose proof (hardcoded_reply_survives_end (Some MoreSamples.talk) cannedReply flatScore
                [host; guest] eq_refl
                (MoreSamples.talkRun [EvInput (lit "hello"); EvSend 1000 5000 1] mounted)
                1%nat guest
                (lit "That's a great point about diversification. As the document mentions, you should avoid concentrated bets and favor broad index funds.")
                2000 3000 (lit "0.5")
                (ex_intro _ 0 (ex_intro _ [] (ex_intro _
                   [EvInput (lit "hello"); EvSend 1000 5000 1] eq_refl)))
                eq_refl) as (_ & _ & Hmsgs).
  unfold MoreSamples.talkRun at 1.
  change (run PresentationPage (Some MoreSamples.talk) cannedReply flatScore [host; guest]
            [EvInput (lit "hello"); EvSend 1000 5000 1; EvEnd 2000; EvFire 1 3000 (lit "0.5")]
            mounted)
    with (run PresentationPage (Some MoreSamples.talk) cannedReply flatScore [host; guest]
            [EvEnd 2000; EvFire 1 3000 (lit "0.5")]
            (MoreSamples.talkRun [EvInput (lit "hello"); EvSend 1000 5000 1] mounted)).
  rewrite Hmsgs. reflexivity.
Defined.
